(** * MetaTrader 5 performance dashboard (app.py): a shallow embedding

    The script is a Streamlit page: it reads two calendar dates and a
    button, fetches the account's deals from the MetaTrader 5 terminal,
    splits them into trades and balance operations, computes a few
    performance figures and renders charts and tables.

    Modelling choices.
    - Monetary columns ([profit], [volume], [price]) are binary floats in
      the program; here they are exact rationals ([Q]), so sums and
      quotients carry no rounding and there is no NaN.
    - DataFrames are Python objects with identity: they live in a heap of
      frames and are named by references, so that in-place column
      assignment and [.copy()] mean what they mean in pandas.
    - The terminal, Streamlit's cache and pandas' sorting routine are
      collaborators outside the script; they appear as a [World] record and
      as the [PandasSort] interface.
    - A run is a function of the inputs and the world; it yields where the
      script ended (or that it stopped, or raised), the final heap and the
      trace of effects: calls to the terminal and what was put on the
      page.
    - Page chrome (title, headers, spinner, expanders) carries no data and
      is left out of the trace of effects. *)

From Stdlib Require Import List ZArith QArith Qabs Bool Lia String Ascii.
From Stdlib Require Import Permutation Sorted.
From Stdlib Require OrderedTypeEx.
Import ListNotations.

Local Open Scope Z_scope.

(** ** Calendar dates and datetimes (Python's [datetime] module) *)

Module PyDatetime.

Record date := mk_date { year : Z; month : Z; day : Z }.

Record time_of_day :=
  mk_time { hour : Z; minute : Z; second : Z; microsecond : Z }.

Record datetime := mk_datetime { d_date : date; d_time : time_of_day }.

(** [datetime.min.time()] and [datetime.max.time()]. *)
Definition time_min : time_of_day := mk_time 0 0 0 0.
Definition time_max : time_of_day := mk_time 23 59 59 999999.

(** [datetime.combine(date, time)]. *)
Definition combine (d : date) (t : time_of_day) : datetime :=
  mk_datetime d t.

(** Python compares dates and datetimes field by field, most significant
    first. *)
Fixpoint lex_compare (xs ys : list Z) : comparison :=
  match xs, ys with
  | [], [] => Eq
  | [], _ :: _ => Lt
  | _ :: _, [] => Gt
  | x :: xs', y :: ys' =>
      match x ?= y with
      | Eq => lex_compare xs' ys'
      | c => c
      end
  end.

Definition date_fields (d : date) : list Z := [year d; month d; day d].

Definition datetime_fields (dt : datetime) : list Z :=
  date_fields (d_date dt) ++
  [hour (d_time dt); minute (d_time dt); second (d_time dt);
   microsecond (d_time dt)].

Definition date_compare (a b : date) : comparison :=
  lex_compare (date_fields a) (date_fields b).

Definition datetime_compare (a b : datetime) : comparison :=
  lex_compare (datetime_fields a) (datetime_fields b).

(** [a < b], [a <= b] on dates; [a >= b] on datetimes. *)
Definition date_ltb (a b : date) : bool :=
  match date_compare a b with Lt => true | _ => false end.

Definition date_leb (a b : date) : bool :=
  match date_compare a b with Gt => false | _ => true end.

Definition datetime_ltb (a b : datetime) : bool :=
  match datetime_compare a b with Lt => true | _ => false end.

Definition datetime_geb (a b : datetime) : bool :=
  match datetime_compare a b with Lt => false | _ => true end.

End PyDatetime.
Import PyDatetime.

(** ** MetaTrader 5 deals *)

(** Modelled from the spec: the integer codes of the [MetaTrader5] package
    used by the script ([DEAL_TYPE_BUY], [DEAL_TYPE_SELL],
    [DEAL_TYPE_BALANCE], [DEAL_ENTRY_OUT]); the package is not part of the
    repository.  The spec describes them as members of closed enumerations,
    that is, pairwise distinct codes; the values are those of the package. *)
Definition DEAL_TYPE_BUY : Z := 0.
Definition DEAL_TYPE_SELL : Z := 1.
Definition DEAL_TYPE_BALANCE : Z := 2.
Definition DEAL_ENTRY_OUT : Z := 1.

(** One deal as [mt5.history_deals_get] returns it (the columns the script
    reads).  [deal_time] is in seconds since the epoch. *)
Record Deal := mk_deal {
  deal_time : Z;
  deal_ticket : Z;
  deal_symbol : string;
  deal_type : Z;
  deal_entry : Z;
  deal_volume : Q;
  deal_price : Q;
  deal_profit : Q;
  deal_comment : string
}.

(** ** DataFrames *)

(** A cell of the [type] column: the integer code of the deal type, or,
    once the column has been relabelled for display, a string. *)
Inductive type_cell :=
| TypeCode (c : Z)
| TypeLabel (s : string).

(** One row of a frame.  [cumulative_profit] is the column the script adds
    to its trade frame; it is [None] in a frame that has no such column. *)
Record Row := mk_row {
  time : Z;
  ticket : Z;
  symbol : string;
  type : type_cell;
  entry : Z;
  volume : Q;
  price : Q;
  profit : Q;
  comment : string;
  cumulative_profit : option Q
}.

Definition DataFrame := list Row.

(** [pd.DataFrame(list(deals), columns=...)] followed by
    [pd.to_datetime(df['time'], unit='s')]: one row per deal, in the order
    of the deals; the conversion of the time column keeps the instant, which
    stays here as the number of seconds. *)
Definition row_of_deal (d : Deal) : Row :=
  mk_row (deal_time d) (deal_ticket d) (deal_symbol d)
         (TypeCode (deal_type d)) (deal_entry d) (deal_volume d)
         (deal_price d) (deal_profit d) (deal_comment d) None.

Definition set_type (c : type_cell) (r : Row) : Row :=
  mk_row (time r) (ticket r) (symbol r) c (entry r) (volume r) (price r)
         (profit r) (comment r) (cumulative_profit r).

Definition set_cumulative_profit (v : Q) (r : Row) : Row :=
  mk_row (time r) (ticket r) (symbol r) (type r) (entry r) (volume r)
         (price r) (profit r) (comment r) (Some v).

(** [df[col] = values]: the values are written row by row. *)
Fixpoint assign_column {V} (set : V -> Row -> Row) (vals : list V)
         (rows : DataFrame) : DataFrame :=
  match rows, vals with
  | r :: rows', v :: vals' => set v r :: assign_column set vals' rows'
  | _, _ => rows
  end.

(** [Series.isin(codes)] and [Series == code] on a cell of the type
    column; a string is equal to no integer code. *)
Definition isin (codes : list Z) (c : type_cell) : bool :=
  match c with
  | TypeCode z => existsb (Z.eqb z) codes
  | TypeLabel _ => false
  end.

Definition eq_code (code : Z) (c : type_cell) : bool :=
  match c with
  | TypeCode z => Z.eqb z code
  | TypeLabel _ => false
  end.

(** [Series.replace({DEAL_TYPE_BUY: 'Sell', DEAL_TYPE_SELL: 'Buy'})]. *)
Definition replace_type (c : type_cell) : type_cell :=
  match c with
  | TypeCode z =>
      if Z.eqb z DEAL_TYPE_BUY then TypeLabel "Sell"
      else if Z.eqb z DEAL_TYPE_SELL then TypeLabel "Buy"
      else c
  | TypeLabel _ => c
  end.

(** Comparisons of floats, on the rationals that stand for them. *)
Definition Qltb (a b : Q) : bool := negb (Qle_bool b a).
Definition Qneqb (a b : Q) : bool := negb (Qeq_bool a b).

(** [Series.sum()], [Series.mean()] and [Series.cumsum()]. *)
Definition sum (xs : list Q) : Q := fold_left Qplus xs 0%Q.

Definition mean (xs : list Q) : Q :=
  (sum xs / inject_Z (Z.of_nat (List.length xs)))%Q.

Fixpoint cumsum_from (acc : Q) (xs : list Q) : list Q :=
  match xs with
  | [] => []
  | x :: xs' => (acc + x)%Q :: cumsum_from (acc + x)%Q xs'
  end.

Definition cumsum (xs : list Q) : list Q :=
  match xs with
  | [] => []
  | x :: xs' => x :: cumsum_from x xs'
  end.

(** A Python float that may be [float('inf')]. *)
Inductive pyfloat :=
| Finite (q : Q)
| Infinity.

(** ** Sorting, as pandas provides it

    [sort_values] is called with its default [kind='quicksort'].  pandas
    promises the result in ascending order of the key and nothing about the
    relative order of rows with equal keys (only [kind='mergesort'] and
    [kind='stable'] are documented as stable).  The routine is therefore an
    interface: any function that returns its input rearranged in ascending
    order. *)

Definition le_of {A} (leb : A -> A -> bool) : A -> A -> Prop :=
  fun a b => leb a b = true.

Definition total_order {A} (leb : A -> A -> bool) : Prop :=
  (forall a b, leb a b = true \/ leb b a = true) /\
  (forall a b c, leb a b = true -> leb b c = true -> leb a c = true).

Class PandasSort := {
  sort_values : forall {A}, (A -> A -> bool) -> list A -> list A;
  sort_values_perm :
    forall A (leb : A -> A -> bool) l, Permutation (sort_values leb l) l;
  sort_values_sorted :
    forall A (leb : A -> A -> bool) l,
      total_order leb -> StronglySorted (le_of leb) (sort_values leb l)
}.

(** Two sorting routines that fit the interface.  [insert_before] puts a
    key in front of the keys equal to it, which makes insertion sort
    stable; [insert_after] puts it behind them, which reverses every run of
    equal keys. *)
Fixpoint insert_before {A} (leb : A -> A -> bool) (x : A) (l : list A)
  : list A :=
  match l with
  | [] => [x]
  | y :: l' => if leb x y then x :: l else y :: insert_before leb x l'
  end.


Definition stable_sort {A} (leb : A -> A -> bool) (l : list A) : list A :=
  fold_right (insert_before leb) [] l.


(** The two routines fit the interface. *)

Section Insertion.

Context {A : Type} (leb : A -> A -> bool).

Lemma insert_before_perm x l : Permutation (insert_before leb x l) (x :: l).
Proof.
  induction l as [|y l IH]; simpl.
  - apply Permutation_refl.
  - destruct (leb x y).
    + apply Permutation_refl.
    + eapply perm_trans; [apply perm_skip, IH | apply perm_swap].
Qed.


Hypothesis leb_total : total_order leb.

Lemma insert_before_sorted x l :
  StronglySorted (le_of leb) l ->
  StronglySorted (le_of leb) (insert_before leb x l).
Proof.
  destruct leb_total as [Htot Htrans].
  induction 1 as [|y l Hs IH Hy]; simpl.
  - repeat constructor.
  - destruct (leb x y) eqn:E.
    + constructor; [constructor; assumption|].
      constructor; [exact E|].
      eapply Forall_impl; [|exact Hy].
      intros z Hz. exact (Htrans _ _ _ E Hz).
    + constructor; [exact IH|].
      assert (Hyx : leb y x = true).
      { destruct (Htot x y) as [H'|H']; [congruence | exact H']. }
      eapply Permutation_Forall.
      * apply Permutation_sym, insert_before_perm.
      * constructor; assumption.
Qed.


End Insertion.

Lemma stable_sort_perm {A} (leb : A -> A -> bool) l :
  Permutation (stable_sort leb l) l.
Proof.
  induction l as [|x l IH]; simpl; [constructor|].
  eapply perm_trans; [apply insert_before_perm | apply perm_skip, IH].
Qed.

Lemma stable_sort_sorted {A} (leb : A -> A -> bool) l :
  total_order leb -> StronglySorted (le_of leb) (stable_sort leb l).
Proof.
  intros Ht. induction l as [|x l IH]; simpl; [constructor|].
  apply insert_before_sorted; assumption.
Qed.



(** A pandas whose sort is stable, and one whose sort is not. *)
Definition pandas_stable : PandasSort :=
  Build_PandasSort (@stable_sort) (@stable_sort_perm) (@stable_sort_sorted).


(** The orders the script sorts by: rows by time, symbol sums by value. *)
Definition by_time (a b : Row) : bool := Z.leb (time a) (time b).

Definition by_value (a b : string * Q) : bool := Qle_bool (snd a) (snd b).

(** [groupby('symbol')['profit'].sum()]: one entry per distinct symbol, the
    symbols in ascending order, each with the sum of the profits of its
    rows. *)
Fixpoint insert_key (s : string) (ks : list string) : list string :=
  match ks with
  | [] => [s]
  | k :: ks' =>
      match String.compare s k with
      | Lt => s :: ks
      | Eq => ks
      | Gt => k :: insert_key s ks'
      end
  end.

Definition group_keys (rows : DataFrame) : list string :=
  fold_right insert_key [] (map symbol rows).

Definition groupby_symbol_profit_sum (rows : DataFrame)
  : list (string * Q) :=
  map (fun k =>
         (k, sum (map profit
                      (filter (fun r => String.eqb (symbol r) k) rows))))
      (group_keys rows).

(** ** Effects: the heap of frames, the page, the terminal *)

Definition ref := nat.

(** What the dashboard table shows of a trade row: the columns
    [time, symbol, ticket, type, volume, price, profit, comment]. *)
Definition trade_view : Type :=
  Z * string * Z * type_cell * Q * Q * Q * string.

Definition trade_columns (r : Row) : trade_view :=
  (time r, symbol r, ticket r, type r, volume r, price r, profit r,
   comment r).

(** The columns [time, ticket, profit] of a balance row. *)
Definition balance_columns (r : Row) : Z * Z * Q :=
  (time r, ticket r, profit r).

Inductive metric_value :=
| MetricFloat (x : pyfloat)
| MetricInt (n : nat).

(** The effects of one run of the script, in the order they happen. *)
Inductive event :=
| EvInitialize (ok : bool)                (* mt5.initialize() *)
| EvGetTradeHistory (s e : datetime)      (* call of get_trade_history *)
| EvHistoryDealsGet (s e : datetime)      (* mt5.history_deals_get *)
| EvShutdown                              (* mt5.shutdown() *)
| EvError (msg : string)                  (* st.error *)
| EvWarning (msg : string)                (* st.warning *)
| EvInfo (msg : string)                   (* st.info *)
| EvMetric (label : string) (v : metric_value)
| EvLineChart (points : list (Z * option Q))
| EvBarChart (bars : list (string * Q))
| EvTradeTable (rows : list trade_view)
| EvBalanceTable (rows : list (Z * Z * Q)).

Record State := mk_state { heap : list DataFrame; out : list event }.

(** A statement returns, or stops the script ([st.stop()]), or raises an
    exception that nothing catches. *)
Inductive Res (A : Type) :=
| Ret (a : A)
| Stopped
| Raised.
Arguments Ret {A} a.
Arguments Stopped {A}.
Arguments Raised {A}.

Definition M (A : Type) : Type := State -> Res A * State.

Definition ret {A} (a : A) : M A := fun s => (Ret a, s).

Definition bind {A B} (m : M A) (k : A -> M B) : M B :=
  fun s =>
    match m s with
    | (Ret a, s') => k a s'
    | (Stopped, s') => (Stopped, s')
    | (Raised, s') => (Raised, s')
    end.

Notation "x <- m ;; k" := (bind m (fun x => k))
  (at level 61, m at next level, right associativity).
Notation "m ;; k" := (bind m (fun _ => k))
  (at level 61, right associativity).

Definition emit (e : event) : M unit :=
  fun s => (Ret tt, mk_state (heap s) (out s ++ [e])).

Definition st_stop {A} : M A := fun s => (Stopped, s).
Definition raise {A} : M A := fun s => (Raised, s).

(** A new frame object. *)
Definition alloc (df : DataFrame) : M ref :=
  fun s => (Ret (List.length (heap s)), mk_state (heap s ++ [df]) (out s)).

Definition load (r : ref) : M DataFrame :=
  fun s =>
    match nth_error (heap s) r with
    | Some df => (Ret df, s)
    | None => (Raised, s)
    end.

Fixpoint update {A} (l : list A) (i : nat) (x : A) : list A :=
  match l, i with
  | [], _ => []
  | _ :: l', O => x :: l'
  | y :: l', S i' => y :: update l' i' x
  end.

(** In-place change of the frame object [r]. *)
Definition modify (r : ref) (f : DataFrame -> DataFrame) : M unit :=
  fun s =>
    match nth_error (heap s) r with
    | Some df => (Ret tt, mk_state (update (heap s) r (f df)) (out s))
    | None => (Raised, s)
    end.

(** [df[mask]]: a new frame with the rows the mask keeps; [df.copy()];
    [df.empty]; [len(df)]; a column read as a list. *)
Definition getitem_mask (df : ref) (mask : Row -> bool) : M ref :=
  rows <- load df ;; alloc (filter mask rows).

Definition copy (df : ref) : M ref :=
  rows <- load df ;; alloc rows.

Definition is_nil {A} (l : list A) : bool :=
  match l with [] => true | _ :: _ => false end.

Definition empty (df : ref) : M bool :=
  rows <- load df ;; ret (is_nil rows).

Definition len (df : ref) : M nat :=
  rows <- load df ;; ret (List.length rows).

Definition column {V} (col : Row -> V) (df : ref) : M (list V) :=
  rows <- load df ;; ret (map col rows).

(** [df[col] = values], in place. *)
Definition setitem {V} (df : ref) (set : V -> Row -> Row) (vals : list V)
  : M unit :=
  modify df (assign_column set vals).

(** The collaborators of one run: whether [mt5.initialize()] succeeds, what
    Streamlit's cache holds for a pair of arguments ([None]: no live entry,
    the function body runs), and what [mt5.history_deals_get] does. *)
Inductive deals_result :=
| DealsRaise                       (* the call raises *)
| DealsNone                        (* returns None *)
| DealsTuple (deals : list Deal).  (* returns a tuple of deals *)

Record World := mk_world {
  mt5_initialize : bool;
  cache_lookup : datetime -> datetime -> option DataFrame;
  mt5_history_deals_get : datetime -> datetime -> deals_result
}.

Record Inputs := mk_inputs {
  start_date : date;
  end_date : date;
  analyze_button : bool
}.

(** ** The script *)

Definition msg_init_failed : string :=
  "Failed to initialize MetaTrader 5. Make sure the terminal is running.".
Definition msg_date_order : string :=
  "Error: Start date must be before the end date.".
Definition msg_no_activity : string :=
  "No account activity found for the selected period. Please select a different date range.".
Definition msg_no_trades : string :=
  "No actual trades (Buys/Sells) found for the selected period. Only balance operations were detected.".
Definition msg_idle : string :=
  "Please select a date range and click 'Analyze Performance' to begin.".

(** The variables of the analysis branch as they stand when the script
    ends.  [trade_data] is the frame made by [.copy()], the one the script
    writes to; [trade_table] is the frame the name [trade_data] is bound to
    after the zero-profit filter. *)
Record Locals := mk_locals {
  raw_data : ref;
  trade_data : ref;
  balance_data : ref;
  net_profit : Q;
  closing_deals : ref;
  total_trades : nat;
  wins : ref;
  losses : ref;
  winning_trades : nat;
  losing_trades : nat;
  win_rate : Q;
  total_profit : Q;
  total_loss : Q;
  profit_factor : pyfloat;
  avg_win : Q;
  avg_loss : Q;
  profit_by_symbol : list (string * Q);
  trade_table : ref
}.

(** Where a run of the script ends. *)
Inductive Branch :=
| Idle                                   (* button not pressed *)
| Rejected                               (* date check failed *)
| NoActivity (raw : ref)                 (* raw_data.empty *)
| NoTrades (raw trades balance : ref)    (* trade_data.empty *)
| Analyzed (vars : Locals).

Section Script.

Context {pandas : PandasSort}.
Variable world : World.

(** [connect_to_mt5]. *)
Definition connect_to_mt5 : M bool :=
  emit (EvInitialize (mt5_initialize world)) ;;
  (if negb (mt5_initialize world)
   then emit (EvError msg_init_failed) ;; st_stop
   else ret tt) ;;
  ret true.

(** The body of [get_trade_history]. *)
Definition get_trade_history_body (start_date end_date : datetime) : M ref :=
  emit (EvHistoryDealsGet start_date end_date) ;;
  match mt5_history_deals_get world start_date end_date with
  | DealsRaise => raise
  | DealsNone => alloc []
  | DealsTuple [] => alloc []
  | DealsTuple deals =>
      df <- alloc (map row_of_deal deals) ;;
      modify df (sort_values by_time) ;;
      ret df
  end.

(** [get_trade_history] under [@st.cache_data]: a live cache entry is
    returned (as a fresh object) without running the body. *)
Definition get_trade_history (start_date end_date : datetime) : M ref :=
  emit (EvGetTradeHistory start_date end_date) ;;
  match cache_lookup world start_date end_date with
  | Some df => alloc df
  | None => get_trade_history_body start_date end_date
  end.

Definition mt5_shutdown : M unit := emit EvShutdown.

(** Lines 77 and 80: the Buy/Sell rows and the balance rows of
    [raw_data], each selected with a mask and then copied. *)
Definition classify (raw_data : ref) : M (ref * ref) :=
  trade_data <-
    (t <- getitem_mask raw_data
            (fun r => isin [DEAL_TYPE_BUY; DEAL_TYPE_SELL] (type r)) ;;
     copy t) ;;
  balance_data <-
    (b <- getitem_mask raw_data
            (fun r => eq_code DEAL_TYPE_BALANCE (type r)) ;;
     copy b) ;;
  ret (trade_data, balance_data).

(** Lines 148 and 151: the type column of the frame [trade_data] is
    relabelled in place, then the name is bound to a new frame without the
    rows of profit 0, which is returned. *)
Definition relabel_and_filter (trade_data : ref) : M ref :=
  types <- column type trade_data ;;
  setitem trade_data set_type (map replace_type types) ;;
  getitem_mask trade_data (fun r => Qneqb (profit r) 0).

(** Lines 76 to 168: what the script does with a non-empty [raw_data]. *)
Definition analyze (raw_data : ref) : M Branch :=
  subsets <- classify raw_data ;;
  let '(trade_data, balance_data) := subsets in
  no_trades <- empty trade_data ;;
  if no_trades then
    emit (EvWarning msg_no_trades) ;;
    ret (NoTrades raw_data trade_data balance_data)
  else
    profits <- column profit trade_data ;;
    let net_profit := sum profits in
    closing_deals <-
      getitem_mask trade_data (fun r => Z.eqb (entry r) DEAL_ENTRY_OUT) ;;
    total_trades <- len closing_deals ;;
    wins <- getitem_mask closing_deals (fun r => Qltb 0 (profit r)) ;;
    losses <- getitem_mask closing_deals (fun r => Qltb (profit r) 0) ;;
    winning_trades <- len wins ;;
    losing_trades <- len losses ;;
    let win_rate :=
      if Nat.ltb 0 total_trades
      then (inject_Z (Z.of_nat winning_trades)
            / inject_Z (Z.of_nat total_trades) * 100)%Q
      else 0%Q in
    win_profits <- column profit wins ;;
    let total_profit := sum win_profits in
    loss_profits <- column profit losses ;;
    let total_loss := Qabs (sum loss_profits) in
    let profit_factor :=
      if Qltb 0 total_loss then Finite (total_profit / total_loss)
      else Infinity in
    let avg_win := if Nat.ltb 0 winning_trades then mean win_profits
                   else 0%Q in
    let avg_loss := if Nat.ltb 0 losing_trades then Qabs (mean loss_profits)
                    else 0%Q in
    emit (EvMetric "Net Profit ($)" (MetricFloat (Finite net_profit))) ;;
    emit (EvMetric "Total Trades" (MetricInt total_trades)) ;;
    emit (EvMetric "Win Rate (%)" (MetricFloat (Finite win_rate))) ;;
    emit (EvMetric "Profit Factor" (MetricFloat profit_factor)) ;;
    (* 1. Cumulative Profit (Equity Curve) *)
    profits <- column profit trade_data ;;
    setitem trade_data set_cumulative_profit (cumsum profits) ;;
    points <- column (fun r => (time r, cumulative_profit r)) trade_data ;;
    emit (EvLineChart points) ;;
    (* 2. Profit/Loss by Symbol *)
    closing_rows <- load closing_deals ;;
    let profit_by_symbol :=
      sort_values by_value (groupby_symbol_profit_sum closing_rows) in
    emit (EvBarChart profit_by_symbol) ;;
    (* replace type with 'Buy' and 'Sell'; filter out trades with profit 0 *)
    trade_table <- relabel_and_filter trade_data ;;
    shown <- column trade_columns trade_table ;;
    emit (EvTradeTable shown) ;;
    no_balance <- empty balance_data ;;
    (if negb no_balance
     then shown <- column balance_columns balance_data ;;
          emit (EvBalanceTable shown)
     else ret tt) ;;
    ret (Analyzed
           (mk_locals raw_data trade_data balance_data net_profit
                      closing_deals total_trades wins losses winning_trades
                      losing_trades win_rate total_profit total_loss
                      profit_factor avg_win avg_loss profit_by_symbol
                      trade_table)).

(** The module body, from the sidebar down. *)
Definition main (inp : Inputs) : M Branch :=
  let start_datetime := combine (start_date inp) time_min in
  let end_datetime := combine (end_date inp) time_max in
  if analyze_button inp then
    if datetime_geb start_datetime end_datetime then
      emit (EvError msg_date_order) ;;
      ret Rejected
    else
      connect_to_mt5 ;;
      raw_data <- get_trade_history start_datetime end_datetime ;;
      mt5_shutdown ;;
      no_activity <- empty raw_data ;;
      if no_activity then
        emit (EvWarning msg_no_activity) ;;
        ret (NoActivity raw_data)
      else
        analyze raw_data
  else
    emit (EvInfo msg_idle) ;;
    ret Idle.

End Script.

(** A run starts with no frame allocated and nothing on the page. *)
Definition initial : State := mk_state [] [].

Definition run {pandas : PandasSort} (w : World) (inp : Inputs)
  : Res Branch * State :=
  main w inp initial.

(** ** The values the script computes, as functions of the fetched frame

    These name the expressions of the script so that the properties below
    can speak of them; each is the expression of the line it quotes. *)

(** Line 77 and line 80. *)
Definition trades_of (raw : DataFrame) : DataFrame :=
  filter (fun r => isin [DEAL_TYPE_BUY; DEAL_TYPE_SELL] (type r)) raw.

Definition balance_of (raw : DataFrame) : DataFrame :=
  filter (fun r => eq_code DEAL_TYPE_BALANCE (type r)) raw.

(** Lines 89, 92, 93. *)
Definition closing_of (trades : DataFrame) : DataFrame :=
  filter (fun r => Z.eqb (entry r) DEAL_ENTRY_OUT) trades.

Definition wins_of (closing : DataFrame) : DataFrame :=
  filter (fun r => Qltb 0 (profit r)) closing.

Definition losses_of (closing : DataFrame) : DataFrame :=
  filter (fun r => Qltb (profit r) 0) closing.

(** Lines 98 to 106. *)
Definition win_rate_of (closing : DataFrame) : Q :=
  if Nat.ltb 0 (List.length closing)
  then (inject_Z (Z.of_nat (List.length (wins_of closing)))
        / inject_Z (Z.of_nat (List.length closing)) * 100)%Q
  else 0%Q.

Definition total_profit_of (closing : DataFrame) : Q :=
  sum (map profit (wins_of closing)).

Definition total_loss_of (closing : DataFrame) : Q :=
  Qabs (sum (map profit (losses_of closing))).

Definition profit_factor_of (closing : DataFrame) : pyfloat :=
  if Qltb 0 (total_loss_of closing)
  then Finite (total_profit_of closing / total_loss_of closing)
  else Infinity.

Definition avg_win_of (closing : DataFrame) : Q :=
  if Nat.ltb 0 (List.length (wins_of closing))
  then mean (map profit (wins_of closing)) else 0%Q.

Definition avg_loss_of (closing : DataFrame) : Q :=
  if Nat.ltb 0 (List.length (losses_of closing))
  then Qabs (mean (map profit (losses_of closing))) else 0%Q.

(** Line 121: the trade frame with its new column. *)
Definition with_cumulative_profit (trades : DataFrame) : DataFrame :=
  assign_column set_cumulative_profit (cumsum (map profit trades)) trades.

(** Line 148: the same frame with its type column relabelled. *)
Definition relabelled (trades : DataFrame) : DataFrame :=
  assign_column set_type (map replace_type (map type trades)) trades.

(** Line 151. *)
Definition drop_zero_profit (trades : DataFrame) : DataFrame :=
  filter (fun r => Qneqb (profit r) 0) trades.

(** The frame [trade_data] names when the script ends. *)
Definition displayed (trades : DataFrame) : DataFrame :=
  drop_zero_profit (relabelled (with_cumulative_profit trades)).

(** The two chart series. *)
Definition equity_curve (trades : DataFrame) : list (Z * option Q) :=
  map (fun r => (time r, cumulative_profit r))
      (with_cumulative_profit trades).

Definition symbol_bars {pandas : PandasSort} (closing : DataFrame)
  : list (string * Q) :=
  sort_values by_value (groupby_symbol_profit_sum closing).

(** What [get_trade_history] returns ([None]: it raises) and what it does
    on the way. *)
Definition fetched {pandas : PandasSort} (w : World) (s e : datetime)
  : option DataFrame :=
  match cache_lookup w s e with
  | Some df => Some df
  | None =>
      match mt5_history_deals_get w s e with
      | DealsRaise => None
      | DealsNone => Some []
      | DealsTuple [] => Some []
      | DealsTuple deals => Some (sort_values by_time (map row_of_deal deals))
      end
  end.

Definition fetch_events (w : World) (s e : datetime) : list event :=
  EvGetTradeHistory s e ::
  match cache_lookup w s e with
  | Some _ => []
  | None => [EvHistoryDealsGet s e]
  end.

(** The heap, the page and the variables after the analysis of [raw]. *)
Definition analysis_heap (raw : DataFrame) : list DataFrame :=
  let trades := trades_of raw in
  let closing := closing_of trades in
  [raw; trades; relabelled (with_cumulative_profit trades);
   balance_of raw; balance_of raw;
   closing; wins_of closing; losses_of closing; displayed trades].

Definition analysis_events {pandas : PandasSort} (raw : DataFrame)
  : list event :=
  let trades := trades_of raw in
  let closing := closing_of trades in
  [EvMetric "Net Profit ($)" (MetricFloat (Finite (sum (map profit trades))));
   EvMetric "Total Trades" (MetricInt (List.length closing));
   EvMetric "Win Rate (%)" (MetricFloat (Finite (win_rate_of closing)));
   EvMetric "Profit Factor" (MetricFloat (profit_factor_of closing));
   EvLineChart (equity_curve trades);
   EvBarChart (symbol_bars closing);
   EvTradeTable (map trade_columns (displayed trades))] ++
  (if is_nil (balance_of raw) then []
   else [EvBalanceTable (map balance_columns (balance_of raw))]).

Definition analysis_vars {pandas : PandasSort} (raw : DataFrame) : Locals :=
  let trades := trades_of raw in
  let closing := closing_of trades in
  mk_locals 0%nat 2%nat 4%nat (sum (map profit trades)) 5%nat
            (List.length closing) 6%nat 7%nat
            (List.length (wins_of closing)) (List.length (losses_of closing))
            (win_rate_of closing) (total_profit_of closing)
            (total_loss_of closing) (profit_factor_of closing)
            (avg_win_of closing) (avg_loss_of closing)
            (symbol_bars closing) 8%nat.

(** The result and the final state of a run, case by case. *)
Definition expected_run {pandas : PandasSort} (w : World) (inp : Inputs)
  : Res Branch * State :=
  let s := combine (start_date inp) time_min in
  let e := combine (end_date inp) time_max in
  if negb (analyze_button inp) then
    (Ret Idle, mk_state [] [EvInfo msg_idle])
  else if negb (date_leb (start_date inp) (end_date inp)) then
    (Ret Rejected, mk_state [] [EvError msg_date_order])
  else if negb (mt5_initialize w) then
    (Stopped, mk_state [] [EvInitialize false; EvError msg_init_failed])
  else
    match fetched w s e with
    | None => (Raised, mk_state [] (EvInitialize true :: fetch_events w s e))
    | Some raw =>
        if is_nil raw then
          (Ret (NoActivity 0%nat),
           mk_state [raw]
                    (EvInitialize true :: fetch_events w s e ++
                     [EvShutdown; EvWarning msg_no_activity]))
        else if is_nil (trades_of raw) then
          (Ret (NoTrades 0%nat 2%nat 4%nat),
           mk_state [raw; trades_of raw; trades_of raw; balance_of raw;
                     balance_of raw]
                    (EvInitialize true :: fetch_events w s e ++
                     [EvShutdown; EvWarning msg_no_trades]))
        else
          (Ret (Analyzed (analysis_vars raw)),
           mk_state (analysis_heap raw)
                    (EvInitialize true :: fetch_events w s e ++
                     EvShutdown :: analysis_events raw))
    end.

(** ** Reading a trace *)

Definition trace (r : Res Branch * State) : list event := out (snd r).

Definition is_connect (e : event) : bool :=
  match e with EvInitialize _ => true | _ => false end.

Definition is_fetch (e : event) : bool :=
  match e with EvGetTradeHistory _ _ => true | _ => false end.

Definition is_broker_query (e : event) : bool :=
  match e with EvHistoryDealsGet _ _ => true | _ => false end.

Definition is_shutdown (e : event) : bool :=
  match e with EvShutdown => true | _ => false end.

(** Events that only write to the page. *)
Definition is_page (e : event) : bool :=
  match e with
  | EvError _ | EvWarning _ | EvInfo _ | EvMetric _ _ | EvLineChart _
  | EvBarChart _ | EvTradeTable _ | EvBalanceTable _ => true
  | _ => false
  end.

Definition count (p : event -> bool) (t : list event) : nat :=
  List.length (filter p t).

(** The request was refused by the date check and nothing else happened. *)
Definition rejected (r : Res Branch * State) : Prop :=
  fst r = Ret Rejected /\ trace r = [EvError msg_date_order].

(** ** The trade table *)

(** Row [r] of the trade frame is shown as [v]: same time, symbol,
    ticket, volume, price, profit and comment, and the label opposite to
    the stored type. *)
Definition shown_inverted (r : Row) (v : trade_view) : Prop :=
  exists label,
    v = (time r, symbol r, ticket r, label, volume r, price r, profit r,
         comment r) /\
    ((type r = TypeCode DEAL_TYPE_BUY /\ label = TypeLabel "Sell") \/
     (type r = TypeCode DEAL_TYPE_SELL /\ label = TypeLabel "Buy")).

(** What line 148 does to one row. *)
Definition relabel_row (r : Row) : Row := set_type (replace_type (type r)) r.

(** ** The equity curve as the spec words it *)

(** The cumulative-profit series of section 4.2, operation 8: the trade
    entries sorted by time ascending with a stable sort (ties in their
    original order), then the running sum of their profits. *)
Definition cumulative_profit_spec (entries : DataFrame) : list Q :=
  cumsum (map profit (stable_sort by_time entries)).

(** ** Sample data *)

Definition sample_day : date := mk_date 2024 3 15.
Definition sample_next_day : date := mk_date 2024 3 16.

(** A terminal with no deals, and one whose history call raises; nothing
    is cached. *)
Definition quiet_world : World :=
  mk_world true (fun _ _ => None) (fun _ _ => DealsNone).

Definition raising_world : World :=
  mk_world true (fun _ _ => None) (fun _ _ => DealsRaise).

Definition sample_row (tm tk : Z) (ty : Z) (en : Z) (p : Q) : Row :=
  mk_row tm tk "EURUSD" (TypeCode ty) en 1%Q 1%Q p "" None.

(** A frame with one row of each kind: a buy, a sell, a deposit and a
    credit (type code 3, which the script does not look for). *)
Definition sample_frame : DataFrame :=
  [sample_row 100 1 DEAL_TYPE_BUY 0 0%Q;
   sample_row 200 2 DEAL_TYPE_SELL 1 (5 # 2)%Q;
   sample_row 300 3 DEAL_TYPE_BALANCE 0 500%Q;
   sample_row 400 4 3 0 7%Q].

Definition sample_deal (tm tk : Z) (sym : string) (ty en : Z) (p : Q)
  : Deal :=
  mk_deal tm tk sym ty en 1%Q 1%Q p "".

(** Deals of one account, in the order the terminal returns them: a
    deposit, a position opened and closed on EURUSD with a profit, one
    closed on GBPUSD with a loss, one closed flat. *)
Definition sample_deals : list Deal :=
  [sample_deal 50 1 "" DEAL_TYPE_BALANCE 0 1000%Q;
   sample_deal 100 2 "EURUSD" DEAL_TYPE_BUY 0 (-1)%Q;
   sample_deal 200 3 "EURUSD" DEAL_TYPE_SELL 1 100%Q;
   sample_deal 300 4 "GBPUSD" DEAL_TYPE_SELL 0 0%Q;
   sample_deal 400 5 "GBPUSD" DEAL_TYPE_BUY 1 (-40)%Q;
   sample_deal 500 6 "EURUSD" DEAL_TYPE_BUY 0 0%Q;
   sample_deal 600 7 "EURUSD" DEAL_TYPE_SELL 1 0%Q].

Definition sample_world : World :=
  mk_world true (fun _ _ => None) (fun _ _ => DealsTuple sample_deals).

Definition sample_inputs : Inputs :=
  mk_inputs sample_day sample_next_day true.

Definition sample_fetched : DataFrame :=
  stable_sort by_time (map row_of_deal sample_deals).







(** ** Further readings of the analysis *)


(** Messages ([st.error], [st.warning], [st.info]) and rendered results
    (metrics, charts, tables) on the page. *)
Definition is_message (e : event) : bool :=
  match e with
  | EvError _ | EvWarning _ | EvInfo _ => true
  | _ => false
  end.

Definition is_result (e : event) : bool :=
  match e with
  | EvMetric _ _ | EvLineChart _ | EvBarChart _ | EvTradeTable _
  | EvBalanceTable _ => true
  | _ => false
  end.

Definition is_balance_table (e : event) : bool :=
  match e with EvBalanceTable _ => true | _ => false end.

(** A terminal that holds two deposits and no trade. *)
Definition deposits_only_deals : list Deal :=
  [sample_deal 50 1 "" DEAL_TYPE_BALANCE 0 1000%Q;
   sample_deal 60 2 "" DEAL_TYPE_BALANCE 0 250%Q].

Definition deposits_only_world : World :=
  mk_world true (fun _ _ => None) (fun _ _ => DealsTuple deposits_only_deals).

(** A terminal that cannot be reached. *)
Definition unreachable_world : World :=
  mk_world false (fun _ _ => None) (fun _ _ => DealsTuple sample_deals).



(** The profit column of a row of the trade table. *)
Definition view_profit (v : trade_view) : Q :=
  let '(_, _, _, _, _, _, p, _) := v in p.

(** The rows that are neither trades nor balance operations. *)
Definition others_of (raw : DataFrame) : DataFrame :=
  filter (fun r => negb (isin [DEAL_TYPE_BUY; DEAL_TYPE_SELL] (type r))
                   && negb (eq_code DEAL_TYPE_BALANCE (type r)))
         raw.

(** * Properties *)

(** ** Running the script *)

Lemma lex_compare_antisym xs ys :
  lex_compare xs ys = CompOpp (lex_compare ys xs).
Proof.
  revert ys. induction xs as [|x xs IH]; intros [|y ys]; simpl; trivial.
  rewrite (Z.compare_antisym y x).
  destruct (y ?= x); simpl; auto.
Qed.

Lemma date_leb_ltb a b : date_leb a b = negb (date_ltb b a).
Proof.
  unfold date_leb, date_ltb, date_compare.
  rewrite (lex_compare_antisym (date_fields b)).
  destruct (lex_compare (date_fields a) (date_fields b)); reflexivity.
Qed.

Lemma combine_geb (a b : date) :
  datetime_geb (combine a time_min) (combine b time_max)
  = negb (date_leb a b).
Proof.
  unfold datetime_geb, datetime_compare, date_leb, date_compare. cbn.
  destruct (year a ?= year b), (month a ?= month b), (day a ?= day b);
    reflexivity.
Qed.

Lemma date_leb_refl d : date_leb d d = true.
Proof.
  unfold date_leb, date_compare. cbn.
  rewrite !Z.compare_refl. reflexivity.
Qed.

Ltac unfold_ops :=
  unfold mt5_shutdown, getitem_mask, copy, empty, len, column, setitem,
         bind, modify, load, alloc, ret, emit, st_stop, raise.

Section Runs.

Context {pandas : PandasSort}.

Local Arguments is_nil : simpl never.
Local Arguments filter : simpl never.
Local Arguments sum : simpl never.
Local Arguments cumsum : simpl never.
Local Arguments map : simpl never.
Local Arguments assign_column : simpl never.
Local Arguments fetch_events : simpl never.
Local Arguments analyze : simpl never.

Lemma analyze_no_trades (raw : DataFrame) evs :
  is_nil (trades_of raw) = true ->
  analyze 0%nat (mk_state [raw] evs) =
  (Ret (NoTrades 0%nat 2%nat 4%nat),
   mk_state [raw; trades_of raw; trades_of raw; balance_of raw;
             balance_of raw]
            (evs ++ [EvWarning msg_no_trades])).
Proof.
  intros H. unfold analyze, classify. unfold_ops. cbn.
  fold (trades_of raw). rewrite H. reflexivity.
Qed.

Lemma analyze_trades (raw : DataFrame) evs :
  is_nil (trades_of raw) = false ->
  analyze 0%nat (mk_state [raw] evs) =
  (Ret (Analyzed (analysis_vars raw)),
   mk_state (analysis_heap raw) (evs ++ analysis_events raw)).
Proof.
  intros H. unfold analyze, classify, relabel_and_filter. unfold_ops. cbn.
  fold (trades_of raw). rewrite H. cbn.
  fold (balance_of raw). unfold analysis_events.
  destruct (is_nil (balance_of raw)) eqn:Hb; cbn; unfold_ops; cbn;
    repeat rewrite <- app_assoc; reflexivity.
Qed.

Lemma get_trade_history_run (w : World) (s e : datetime) evs :
  get_trade_history w s e (mk_state [] evs) =
  match fetched w s e with
  | Some df => (Ret 0%nat, mk_state [df] (evs ++ fetch_events w s e))
  | None => (Raised, mk_state [] (evs ++ fetch_events w s e))
  end.
Proof.
  unfold get_trade_history, get_trade_history_body, fetched, fetch_events.
  unfold_ops. cbn.
  destruct (cache_lookup w s e); cbn; [reflexivity|].
  destruct (mt5_history_deals_get w s e) as [| |[|d ds]]; cbn;
    rewrite <- app_assoc; reflexivity.
Qed.

Lemma run_expected (w : World) (inp : Inputs) :
  run w inp = expected_run w inp.
Proof.
  unfold run, main, expected_run.
  destruct (analyze_button inp); cbn; [|reflexivity].
  rewrite combine_geb.
  destruct (date_leb (start_date inp) (end_date inp)); cbn; [|reflexivity].
  unfold connect_to_mt5, bind at 1 2 3.
  destruct (mt5_initialize w); cbn; [|reflexivity].
  unfold bind at 1. rewrite get_trade_history_run.
  destruct (fetched w _ _) as [raw|]; [|reflexivity].
  unfold_ops. cbn.
  destruct (is_nil raw) eqn:Hraw; cbn.
  - rewrite <- app_assoc. reflexivity.
  - destruct (is_nil (trades_of raw)) eqn:Ht.
    + rewrite (analyze_no_trades raw _ Ht).
      cbn. rewrite <- app_assoc. reflexivity.
    + rewrite (analyze_trades raw _ Ht).
      cbn. rewrite <- !app_assoc. reflexivity.
Qed.

End Runs.

(** ** The trace of a run *)

Lemma count_app p t u : count p (t ++ u) = (count p t + count p u)%nat.
Proof. unfold count. rewrite filter_app, length_app. reflexivity. Qed.

Lemma count_page_only p t :
  (forall e, is_page e = true -> p e = false) ->
  forallb is_page t = true -> count p t = 0%nat.
Proof.
  intros Hp. unfold count. induction t as [|e t IH]; simpl; [reflexivity|].
  intros H. apply andb_prop in H as [He Ht].
  rewrite (Hp e He). auto.
Qed.

Lemma analysis_events_page {pandas : PandasSort} raw :
  forallb is_page (analysis_events raw) = true.
Proof.
  unfold analysis_events. rewrite forallb_app. simpl.
  destruct (is_nil (balance_of raw)); reflexivity.
Qed.

Lemma count_fetch_events p w s e :
  count p (fetch_events w s e) =
  ((if p (EvGetTradeHistory s e) then 1 else 0) +
   match cache_lookup w s e with
   | Some _ => 0
   | None => if p (EvHistoryDealsGet s e) then 1 else 0
   end)%nat.
Proof.
  unfold count, fetch_events. simpl.
  destruct (p (EvGetTradeHistory s e)), (cache_lookup w s e); simpl;
    try destruct (p (EvHistoryDealsGet s e)); reflexivity.
Qed.

Ltac page_blind := intros [] H; (discriminate H || reflexivity).

(** How often an event of a kind that is not a page event occurs in a
    run that passed the date check and connected. *)
Lemma count_connected_run {pandas : PandasSort} p w inp :
  (forall e, is_page e = true -> p e = false) ->
  analyze_button inp = true ->
  date_leb (start_date inp) (end_date inp) = true ->
  mt5_initialize w = true ->
  let s := combine (start_date inp) time_min in
  let e := combine (end_date inp) time_max in
  count p (trace (run w inp)) =
  ((if p (EvInitialize true) then 1 else 0) + count p (fetch_events w s e) +
   match fetched w s e with
   | Some _ => if p EvShutdown then 1 else 0
   | None => 0
   end)%nat.
Proof.
  intros Hp Hb Hd Hi s e. rewrite run_expected. unfold expected_run, trace.
  rewrite Hb, Hd, Hi. cbn [negb]. fold s e.
  assert (Hcons : forall x t, count p (x :: t)
                  = ((if p x then 1 else 0) + count p t)%nat).
  { intros x t. unfold count. simpl. destruct (p x); reflexivity. }
  destruct (fetched w s e) as [raw|]; cbn [snd out].
  - destruct (is_nil raw); [|destruct (is_nil (trades_of raw))];
      cbn [snd out]; rewrite Hcons, count_app, Hcons.
    + rewrite (count_page_only p [_]) by (assumption || reflexivity). lia.
    + rewrite (count_page_only p [_]) by (assumption || reflexivity). lia.
    + rewrite (count_page_only p (analysis_events raw))
        by (assumption || apply analysis_events_page). lia.
  - rewrite Hcons. lia.
Qed.

(** C9: the range handed to the fetcher runs from 00:00:00 of the start
    date to 23:59:59.999999 of the end date, whatever the two dates are;
    for one and the same date this pair is strictly increasing, so the
    test [start_datetime >= end_datetime] is false and the request is not
    refused. *)
Theorem C9_range_widened_to_whole_days {pandas : PandasSort}
        (w : World) (inp : Inputs) :
  (forall s e,
      In (EvGetTradeHistory s e) (trace (run w inp)) ->
      s = mk_datetime (start_date inp) (mk_time 0 0 0 0) /\
      e = mk_datetime (end_date inp) (mk_time 23 59 59 999999)) /\
  (forall d,
      datetime_ltb (combine d time_min) (combine d time_max) = true /\
      datetime_geb (combine d time_min) (combine d time_max) = false) /\
  (start_date inp = end_date inp -> ~ rejected (run w inp)) /\
  (start_date inp = end_date inp ->
   analyze_button inp = true ->
   mt5_initialize w = true ->
   In (EvGetTradeHistory
         (mk_datetime (start_date inp) (mk_time 0 0 0 0))
         (mk_datetime (start_date inp) (mk_time 23 59 59 999999)))
      (trace (run w inp))).
Proof.
  split; [|split; [|split]].
  - intros s e. rewrite run_expected. unfold expected_run, trace.
    destruct (analyze_button inp); cbn [negb];
      [|simpl; intuition discriminate].
    destruct (date_leb _ _); cbn [negb]; [|simpl; intuition discriminate].
    destruct (mt5_initialize w); cbn [negb];
      [|simpl; intuition discriminate].
    assert (Hf : forall s0 e0,
               In (EvGetTradeHistory s e) (fetch_events w s0 e0) ->
               s = s0 /\ e = e0).
    { intros s0 e0. unfold fetch_events.
      destruct (cache_lookup w s0 e0); simpl; intros H;
        repeat (destruct H as [H|H]; try discriminate H; try contradiction);
        inversion H; auto. }
    assert (Hp : forall t, forallb is_page t = true ->
                           ~ In (EvGetTradeHistory s e) t).
    { intros t Ht Hin. rewrite forallb_forall in Ht.
      specialize (Ht _ Hin). discriminate Ht. }
    destruct (fetched w _ _) as [raw|]; cbn [snd out].
    + destruct (is_nil raw); [|destruct (is_nil (trades_of raw))];
        cbn [snd out]; intros [H|H]; try discriminate H;
        apply in_app_or in H as [H|H]; try (apply Hf in H; exact H);
        exfalso.
      * simpl in H. intuition discriminate.
      * simpl in H. intuition discriminate.
      * destruct H as [H|H]; [discriminate H|].
        revert H. apply Hp, analysis_events_page.
    + intros [H|H]; [discriminate H | apply Hf in H; exact H].
  - intros d. unfold datetime_ltb, datetime_geb, datetime_compare. cbn.
    rewrite !Z.compare_refl. split; reflexivity.
  - intros Heq [Hr _]. rewrite run_expected in Hr. unfold expected_run in Hr.
    rewrite Heq, date_leb_refl in Hr.
    destruct (analyze_button inp); cbn [negb] in Hr; [|discriminate Hr].
    destruct (mt5_initialize w); cbn [negb] in Hr; [|discriminate Hr].
    destruct (fetched w _ _) as [raw|]; [|discriminate Hr].
    destruct (is_nil raw); [discriminate Hr|].
    destruct (is_nil (trades_of raw)); discriminate Hr.
  - intros Heq Hb Hi. unfold trace. rewrite run_expected.
    unfold expected_run. rewrite Hb, Hi, <- Heq, date_leb_refl. cbn [negb].
    assert (Hin : forall rest,
               In (EvGetTradeHistory (combine (start_date inp) time_min)
                                     (combine (start_date inp) time_max))
                  (EvInitialize true ::
                   fetch_events w (combine (start_date inp) time_min)
                                (combine (start_date inp) time_max) ++ rest)).
    { intros rest. right. apply in_or_app. left. left. reflexivity. }
    destruct (fetched w _ _) as [raw|];
      [destruct (is_nil raw); [|destruct (is_nil (trades_of raw))]|];
      cbn [snd out]; try apply Hin.
    rewrite <- (app_nil_r (fetch_events _ _ _)). apply Hin.
Qed.

Lemma C9_range_widened_to_whole_days_witness :
  let inp := mk_inputs sample_day sample_day true in
  In (EvGetTradeHistory
        (mk_datetime sample_day (mk_time 0 0 0 0))
        (mk_datetime sample_day (mk_time 23 59 59 999999)))
     (trace (@run pandas_stable quiet_world inp)).
Proof.
  intros inp.
  apply (C9_range_widened_to_whole_days
           (pandas := pandas_stable) quiet_world inp); reflexivity.
Defined.

(** ** Date validation *)

Lemma rejected_iff {pandas : PandasSort} w inp :
  analyze_button inp = true ->
  (rejected (run w inp) <->
   date_leb (start_date inp) (end_date inp) = false).
Proof.
  intros Hb. unfold rejected, trace. rewrite run_expected.
  unfold expected_run. rewrite Hb. cbn [negb].
  destruct (date_leb _ _); cbn [negb].
  - split; [|discriminate]. intros [H _]. exfalso.
    destruct (mt5_initialize w); cbn [negb] in H; [|discriminate H].
    destruct (fetched w _ _) as [raw|]; [|discriminate H].
    destruct (is_nil raw); [discriminate H|].
    destruct (is_nil (trades_of raw)); discriminate H.
  - split; auto.
Qed.

(** C1, as the script has it: a request is refused by the date check
    exactly when the start date is strictly after the end date, and then
    nothing is connected or fetched; the terminal is contacted exactly when
    the start date is on or before the end date.  Two equal dates are
    therefore accepted. *)
Theorem C1_rejected_only_when_start_after_end {pandas : PandasSort}
        (w : World) (inp : Inputs) :
  analyze_button inp = true ->
  (rejected (run w inp) <->
   date_ltb (end_date inp) (start_date inp) = true) /\
  (rejected (run w inp) ->
   count is_connect (trace (run w inp)) = 0%nat /\
   count is_fetch (trace (run w inp)) = 0%nat) /\
  (count is_connect (trace (run w inp)) = 1%nat <->
   date_leb (start_date inp) (end_date inp) = true) /\
  (start_date inp = end_date inp ->
   count is_connect (trace (run w inp)) = 1%nat).
Proof.
  intros Hb.
  assert (Hconn : count is_connect (trace (run w inp)) = 1%nat <->
                  date_leb (start_date inp) (end_date inp) = true).
  { destruct (date_leb (start_date inp) (end_date inp)) eqn:Hd.
    - split; [reflexivity|]. intros _.
      destruct (mt5_initialize w) eqn:Hi.
      + rewrite (count_connected_run is_connect w inp)
          by (assumption || page_blind).
        rewrite count_fetch_events. simpl.
        destruct (cache_lookup w _ _), (fetched w _ _); reflexivity.
      + unfold trace. rewrite run_expected. unfold expected_run.
        rewrite Hb, Hd, Hi. reflexivity.
    - split; [|discriminate]. unfold trace. rewrite run_expected.
      unfold expected_run. rewrite Hb, Hd. cbn. discriminate. }
  split; [|split; [|split]].
  - rewrite (rejected_iff w inp Hb), date_leb_ltb.
    destruct (date_ltb _ _); simpl; intuition congruence.
  - intros [_ Ht]. rewrite Ht. split; reflexivity.
  - exact Hconn.
  - intros Heq. apply Hconn. rewrite Heq. apply date_leb_refl.
Qed.

Lemma C1_rejected_only_when_start_after_end_witness :
  let inp := mk_inputs sample_day sample_day true in
  analyze_button inp = true /\
  start_date inp = end_date inp /\
  count is_connect (trace (@run pandas_stable quiet_world inp)) = 1%nat.
Proof.
  intros inp. split; [reflexivity|]. split; [reflexivity|].
  apply (C1_rejected_only_when_start_after_end
           (pandas := pandas_stable) quiet_world inp); reflexivity.
Defined.

(** C1 as the spec words it fails: with the same date chosen twice and the
    button pressed, the script is not stopped by the date check; it
    connects, fetches the whole day and disconnects. *)
Lemma C1_equal_dates_are_fetched :
  let inp := mk_inputs sample_day sample_day true in
  let r := @run pandas_stable quiet_world inp in
  start_date inp = end_date inp /\
  analyze_button inp = true /\
  ~ rejected r /\
  trace r =
    [EvInitialize true;
     EvGetTradeHistory (mk_datetime sample_day (mk_time 0 0 0 0))
                       (mk_datetime sample_day (mk_time 23 59 59 999999));
     EvHistoryDealsGet (mk_datetime sample_day (mk_time 0 0 0 0))
                       (mk_datetime sample_day (mk_time 23 59 59 999999));
     EvShutdown;
     EvWarning msg_no_activity].
Proof.
  cbv zeta. repeat split.
  intros [H _]. vm_compute in H. discriminate H.
Qed.

(** ** The connection around the fetch *)

(** C3, as the script has it: in a request that passes the date check and
    whose [mt5.initialize()] succeeds, the connection is made once and
    [get_trade_history] is called once, right after it (the terminal is
    queried once, or not at all when the cache answers); when that call
    returns, [mt5.shutdown()] follows at once and is the only release;
    when it raises, the script ends there and [mt5.shutdown()] is never
    called. *)
Theorem C3_release_follows_a_returning_fetch {pandas : PandasSort}
        (w : World) (inp : Inputs) :
  analyze_button inp = true ->
  date_leb (start_date inp) (end_date inp) = true ->
  mt5_initialize w = true ->
  let s := combine (start_date inp) time_min in
  let e := combine (end_date inp) time_max in
  let r := run w inp in
  count is_connect (trace r) = 1%nat /\
  count is_fetch (trace r) = 1%nat /\
  count is_broker_query (trace r)
  = match cache_lookup w s e with Some _ => 0%nat | None => 1%nat end /\
  match fetched w s e with
  | Some _ =>
      count is_shutdown (trace r) = 1%nat /\
      exists page,
        trace r = EvInitialize true :: fetch_events w s e ++
                  EvShutdown :: page /\
        forallb is_page page = true
  | None =>
      fst r = Raised /\
      count is_shutdown (trace r) = 0%nat /\
      trace r = EvInitialize true :: fetch_events w s e
  end.
Proof.
  intros Hb Hd Hi s e r. subst r.
  rewrite !(count_connected_run _ w inp) by (assumption || page_blind).
  fold s e. rewrite !count_fetch_events.
  cbn [is_connect is_fetch is_shutdown is_broker_query].
  split; [destruct (cache_lookup w s e), (fetched w s e); reflexivity|].
  split; [destruct (cache_lookup w s e), (fetched w s e); reflexivity|].
  split; [destruct (cache_lookup w s e), (fetched w s e); reflexivity|].
  unfold trace. rewrite run_expected. unfold expected_run.
  rewrite Hb, Hd, Hi. cbn [negb]. fold s e.
  destruct (fetched w s e) as [raw|].
  - split; [destruct (cache_lookup w s e); reflexivity|].
    destruct (is_nil raw); [|destruct (is_nil (trades_of raw))];
      cbn [snd out]; eexists; (split; [reflexivity|]);
      try reflexivity.
    apply analysis_events_page.
  - cbn [fst snd out].
    split; [reflexivity|].
    split; [destruct (cache_lookup w s e); reflexivity | reflexivity].
Qed.

Lemma C3_release_follows_a_returning_fetch_witness :
  let inp := mk_inputs sample_day sample_next_day true in
  let r := @run pandas_stable quiet_world inp in
  (analyze_button inp = true /\
   date_leb (start_date inp) (end_date inp) = true /\
   mt5_initialize quiet_world = true) /\
  count is_connect (trace r) = 1%nat /\
  count is_fetch (trace r) = 1%nat /\
  count is_shutdown (trace r) = 1%nat.
Proof.
  intros inp r. split; [repeat split|].
  pose proof (C3_release_follows_a_returning_fetch
                (pandas := pandas_stable) quiet_world inp
                eq_refl eq_refl eq_refl) as H.
  cbv zeta in H. destruct H as (H1 & H2 & _ & H3 & _).
  repeat split; assumption.
Defined.

(** C3 as the spec words it fails: when [mt5.history_deals_get] raises,
    the exception leaves the script with the connection still open; no
    [mt5.shutdown()] is executed. *)
Lemma C3_no_release_when_fetch_raises :
  let inp := mk_inputs sample_day sample_next_day true in
  let r := @run pandas_stable raising_world inp in
  fst r = Raised /\
  count is_connect (trace r) = 1%nat /\
  count is_fetch (trace r) = 1%nat /\
  count is_shutdown (trace r) = 0%nat /\
  ~ In EvShutdown (trace r).
Proof.
  cbv zeta. repeat split.
  vm_compute. intuition discriminate.
Qed.

(** ** The heap of frames *)

Section Heap.

Variables (h : list DataFrame).

Lemma lookup_alloc_old (df x : DataFrame) r :
  nth_error h r = Some x -> nth_error (h ++ [df]) r = Some x.
Proof.
  intros H. rewrite nth_error_app1; [exact H|].
  apply nth_error_Some. congruence.
Qed.

Lemma lookup_alloc_new (df : DataFrame) :
  nth_error (h ++ [df]) (List.length h) = Some df.
Proof.
  rewrite nth_error_app2 by lia. rewrite Nat.sub_diag. reflexivity.
Qed.

Lemma lookup_alloc_block (l : list DataFrame) k :
  nth_error (h ++ l) (k + List.length h) = nth_error l k.
Proof.
  rewrite nth_error_app2 by lia. f_equal. lia.
Qed.

Lemma lookup_valid (x : DataFrame) r :
  nth_error h r = Some x -> (r < List.length h)%nat.
Proof. intros H. apply nth_error_Some. congruence. Qed.

End Heap.

Ltac block_lookup k :=
  match goal with
  | |- nth_error (?h ++ ?l) _ = _ => exact (lookup_alloc_block h l k)
  end.

Lemma lookup_update_same (h : list DataFrame) r x y :
  nth_error h r = Some x -> nth_error (update h r y) r = Some y.
Proof.
  revert r. induction h as [|z h IH]; intros [|r]; simpl;
    try discriminate; auto.
Qed.

Lemma lookup_update_other (h : list DataFrame) r r' y :
  r <> r' -> nth_error (update h r y) r' = nth_error h r'.
Proof.
  revert r r'. induction h as [|z h IH]; intros [|r] [|r'] Hne; simpl;
    try reflexivity; try congruence.
  apply IH. congruence.
Qed.

Lemma length_update (h : list DataFrame) r y :
  List.length (update h r y) = List.length h.
Proof.
  revert r. induction h as [|z h IH]; intros [|r]; simpl; auto.
Qed.

Lemma getitem_mask_run s df rows mask :
  nth_error (heap s) df = Some rows ->
  getitem_mask df mask s =
  (Ret (List.length (heap s)),
   mk_state (heap s ++ [filter mask rows]) (out s)).
Proof.
  intros H. unfold getitem_mask, bind, load, alloc. rewrite H. reflexivity.
Qed.

Lemma copy_run s df rows :
  nth_error (heap s) df = Some rows ->
  copy df s =
  (Ret (List.length (heap s)), mk_state (heap s ++ [rows]) (out s)).
Proof.
  intros H. unfold copy, bind, load, alloc. rewrite H. reflexivity.
Qed.

Lemma classify_run s raw_data raw :
  nth_error (heap s) raw_data = Some raw ->
  classify raw_data s =
  (Ret (S (List.length (heap s)), S (S (S (List.length (heap s))))),
   mk_state (heap s ++ [trades_of raw; trades_of raw; balance_of raw;
                        balance_of raw])
            (out s)).
Proof.
  intros H. unfold classify.
  unfold bind at 1 2.
  rewrite (getitem_mask_run s _ _ _ H).
  erewrite copy_run by (cbn [heap]; apply lookup_alloc_new).
  cbn [heap out].
  unfold bind at 1 2.
  erewrite getitem_mask_run
    by (cbn [heap]; do 2 apply lookup_alloc_old; exact H).
  erewrite copy_run by (cbn [heap]; apply lookup_alloc_new).
  cbn [heap out ret]. rewrite !length_app. cbn [List.length].
  rewrite <- !app_assoc. cbn [app]. unfold ret.
  replace (List.length (heap s) + 1)%nat with (S (List.length (heap s)))
    by lia.
  replace (S (List.length (heap s)) + 1 + 1)%nat
    with (S (S (S (List.length (heap s))))) by lia.
  reflexivity.
Qed.

(** ** Classification *)

Lemma isin_buy_sell c :
  isin [DEAL_TYPE_BUY; DEAL_TYPE_SELL] c = true <->
  c = TypeCode DEAL_TYPE_BUY \/ c = TypeCode DEAL_TYPE_SELL.
Proof.
  destruct c as [z|s]; simpl.
  - rewrite !orb_true_iff, !Z.eqb_eq. split.
    + intros [H|[H|H]]; [left|right|discriminate]; congruence.
    + intros [H|H]; inversion H; auto.
  - split; [discriminate | intros [H|H]; discriminate].
Qed.

Lemma eq_code_balance c :
  eq_code DEAL_TYPE_BALANCE c = true <-> c = TypeCode DEAL_TYPE_BALANCE.
Proof.
  destruct c as [z|s]; simpl.
  - rewrite Z.eqb_eq. split; congruence.
  - split; discriminate.
Qed.

Lemma in_trades_of r raw :
  In r (trades_of raw) <->
  In r raw /\
  (type r = TypeCode DEAL_TYPE_BUY \/ type r = TypeCode DEAL_TYPE_SELL).
Proof. unfold trades_of. rewrite filter_In, isin_buy_sell. tauto. Qed.

Lemma in_balance_of r raw :
  In r (balance_of raw) <->
  In r raw /\ type r = TypeCode DEAL_TYPE_BALANCE.
Proof. unfold balance_of. rewrite filter_In, eq_code_balance. tauto. Qed.

Lemma trades_of_idempotent raw : trades_of (trades_of raw) = trades_of raw.
Proof.
  unfold trades_of. apply forallb_filter_id, forallb_filter.
Qed.

Lemma balance_of_trades raw : balance_of (trades_of raw) = [].
Proof.
  unfold balance_of, trades_of.
  induction raw as [|r raw IH]; simpl; [reflexivity|].
  destruct (isin _ (type r)) eqn:E; simpl; [|exact IH].
  apply isin_buy_sell in E.
  destruct (eq_code _ (type r)) eqn:E'; [|exact IH].
  apply eq_code_balance in E'. rewrite E' in E.
  destruct E as [E|E]; discriminate E.
Qed.

(** C5: lines 77 and 80 make, from any frame [raw_data], a frame of the
    rows of type Buy or Sell and a frame of the rows of type Balance, both
    new objects and [raw_data] left as it was.  No row is in both, every
    row of either is a row of the input, a row of any other type is in
    neither, and classifying the trade frame again gives the same trade
    rows (and no balance row). *)
Theorem C5_classification (s : State) (raw_data : ref) (raw : DataFrame) :
  nth_error (heap s) raw_data = Some raw ->
  exists trade_data balance_data s' T B,
    classify raw_data s = (Ret (trade_data, balance_data), s') /\
    nth_error (heap s') trade_data = Some T /\
    nth_error (heap s') balance_data = Some B /\
    nth_error (heap s') raw_data = Some raw /\
    out s' = out s /\
    (forall r, In r T <->
               In r raw /\ (type r = TypeCode DEAL_TYPE_BUY \/
                            type r = TypeCode DEAL_TYPE_SELL)) /\
    (forall r, In r B <->
               In r raw /\ type r = TypeCode DEAL_TYPE_BALANCE) /\
    (forall r, ~ (In r T /\ In r B)) /\
    (forall r, In r T \/ In r B -> In r raw) /\
    (forall r, type r <> TypeCode DEAL_TYPE_BUY ->
               type r <> TypeCode DEAL_TYPE_SELL ->
               type r <> TypeCode DEAL_TYPE_BALANCE ->
               ~ In r T /\ ~ In r B) /\
    exists trade_data' balance_data' s'',
      classify trade_data s' = (Ret (trade_data', balance_data'), s'') /\
      nth_error (heap s'') trade_data' = Some T /\
      nth_error (heap s'') balance_data' = Some [].
Proof.
  intros H.
  assert (Hlen := lookup_valid _ _ _ H).
  set (n := List.length (heap s)) in *.
  exists (S n), (S (S (S n))). eexists.
  exists (trades_of raw), (balance_of raw).
  split; [apply classify_run; exact H|]. cbn [heap out].
  split; [block_lookup 1%nat|].
  split; [block_lookup 3%nat|].
  split; [rewrite nth_error_app1 by exact Hlen; exact H|].
  split; [reflexivity|].
  split; [intros r; apply in_trades_of|].
  split; [intros r; apply in_balance_of|].
  split.
  { intros r [Ht Hb]. apply in_trades_of in Ht as [_ Ht].
    apply in_balance_of in Hb as [_ Hb]. rewrite Hb in Ht.
    destruct Ht as [Ht|Ht]; discriminate Ht. }
  split.
  { intros r [Ht|Hb]; [apply in_trades_of in Ht | apply in_balance_of in Hb];
      tauto. }
  split.
  { intros r H1 H2 H3. split; intros Hin;
      [apply in_trades_of in Hin | apply in_balance_of in Hin]; tauto. }
  eexists _, _, _. split.
  { apply classify_run. cbn [heap].
    block_lookup 1%nat. }
  cbn [heap]. rewrite trades_of_idempotent, balance_of_trades.
  split.
  - block_lookup 1%nat.
  - block_lookup 3%nat.
Qed.

Lemma C5_classification_witness :
  let s := mk_state [sample_frame] [] in
  nth_error (heap s) 0 = Some sample_frame /\
  exists trade_data balance_data s' T B,
    classify 0%nat s = (Ret (trade_data, balance_data), s') /\
    nth_error (heap s') trade_data = Some T /\
    nth_error (heap s') balance_data = Some B /\
    (forall r, ~ (In r T /\ In r B)) /\
    (forall r, In r T \/ In r B -> In r sample_frame).
Proof.
  intros s. split; [reflexivity|].
  destruct (C5_classification s 0%nat sample_frame eq_refl)
    as (t & b & s' & T & B & H1 & H2 & H3 & _ & _ & _ & _ & H4 & H5 & _).
  exists t, b, s', T, B. repeat split; assumption.
Defined.

(** ** Runs that reach the analysis *)

Lemma run_analyzed_inv {pandas : PandasSort} w inp vars st :
  run w inp = (Ret (Analyzed vars), st) ->
  let s := combine (start_date inp) time_min in
  let e := combine (end_date inp) time_max in
  exists raw,
    analyze_button inp = true /\
    date_leb (start_date inp) (end_date inp) = true /\
    mt5_initialize w = true /\
    fetched w s e = Some raw /\
    is_nil raw = false /\
    is_nil (trades_of raw) = false /\
    vars = analysis_vars raw /\
    st = mk_state (analysis_heap raw)
                  (EvInitialize true :: fetch_events w s e ++
                   EvShutdown :: analysis_events raw).
Proof.
  intros H s e. rewrite run_expected in H. unfold expected_run in H.
  fold s e in H.
  destruct (analyze_button inp); cbn [negb] in H; [|discriminate H].
  destruct (date_leb _ _); cbn [negb] in H; [|discriminate H].
  destruct (mt5_initialize w); cbn [negb] in H; [|discriminate H].
  destruct (fetched w s e) as [raw|]; [|discriminate H].
  destruct (is_nil raw) eqn:Hr; [discriminate H|].
  destruct (is_nil (trades_of raw)) eqn:Ht; [discriminate H|].
  inversion H. exists raw. repeat split; (reflexivity || assumption).
Qed.

Lemma sample_run_analyzed :
  @run pandas_stable sample_world sample_inputs =
  (Ret (Analyzed (@analysis_vars pandas_stable sample_fetched)),
   snd (@run pandas_stable sample_world sample_inputs)).
Proof. vm_compute. reflexivity. Qed.

(** ** Sums and running sums *)

Lemma fold_left_Qplus_compat xs a b :
  (a == b)%Q -> (fold_left Qplus xs a == fold_left Qplus xs b)%Q.
Proof.
  revert a b. induction xs as [|x xs IH]; intros a b Hab; simpl.
  - exact Hab.
  - apply IH. rewrite Hab. reflexivity.
Qed.



Lemma length_cumsum_from acc xs :
  List.length (cumsum_from acc xs) = List.length xs.
Proof.
  revert acc. induction xs as [|x xs IH]; intros acc; simpl; auto.
Qed.

Lemma length_cumsum xs : List.length (cumsum xs) = List.length xs.
Proof.
  destruct xs as [|x xs]; simpl; [|rewrite length_cumsum_from]; reflexivity.
Qed.

(** ** Column assignment *)

Section AssignColumn.

Context {V : Type} (set : V -> Row -> Row).

Lemma length_assign_column vals rows :
  List.length (assign_column set vals rows) = List.length rows.
Proof.
  revert vals. induction rows as [|r rows IH]; intros [|v vals]; simpl;
    auto.
Qed.

(** A column that [set] leaves alone is the same after the assignment. *)
Lemma assign_column_other {C} (col : Row -> C) vals rows :
  (forall v r, col (set v r) = col r) ->
  map col (assign_column set vals rows) = map col rows.
Proof.
  intros Hcol. revert vals.
  induction rows as [|r rows IH]; intros [|v vals]; simpl; auto.
  rewrite Hcol, IH. reflexivity.
Qed.

(** The assigned column holds the values, one per row. *)
Lemma assign_column_same {C} (col : Row -> C) (f : V -> C) vals rows :
  (forall v r, col (set v r) = f v) ->
  List.length vals = List.length rows ->
  map col (assign_column set vals rows) = map f vals.
Proof.
  intros Hcol. revert vals.
  induction rows as [|r rows IH]; intros [|v vals] Hlen; simpl in *;
    try discriminate; auto.
  rewrite Hcol, IH by congruence. reflexivity.
Qed.

End AssignColumn.

Lemma cumulative_column trades :
  map cumulative_profit (with_cumulative_profit trades)
  = map Some (cumsum (map profit trades)).
Proof.
  unfold with_cumulative_profit. apply assign_column_same.
  - reflexivity.
  - rewrite length_cumsum, length_map. reflexivity.
Qed.

Lemma cumulative_column_relabelled trades :
  map cumulative_profit (relabelled (with_cumulative_profit trades))
  = map Some (cumsum (map profit trades)).
Proof.
  unfold relabelled. rewrite assign_column_other by reflexivity.
  apply cumulative_column.
Qed.

Lemma equity_curve_columns trades :
  map fst (equity_curve trades) = map time trades /\
  map snd (equity_curve trades) = map Some (cumsum (map profit trades)).
Proof.
  unfold equity_curve. rewrite !map_map. cbn [fst snd]. split.
  - unfold with_cumulative_profit. apply assign_column_other. reflexivity.
  - apply cumulative_column.
Qed.




(** ** The displayed table *)

Lemma assign_column_map_self {V} (set : V -> Row -> Row) (g : Row -> V)
      rows :
  assign_column set (map g rows) rows = map (fun r => set (g r) r) rows.
Proof.
  induction rows as [|r rows IH]; simpl; [reflexivity|].
  rewrite IH. reflexivity.
Qed.

Lemma map_filter_assign_column {V C} (set : V -> Row -> Row)
      (p : Row -> bool) (g : Row -> C) vals rows :
  (forall v r, p (set v r) = p r) ->
  (forall v r, g (set v r) = g r) ->
  map g (filter p (assign_column set vals rows)) = map g (filter p rows).
Proof.
  intros Hp Hg. revert vals.
  induction rows as [|r rows IH]; intros [|v vals]; simpl; auto.
  rewrite Hp. destruct (p r); simpl; rewrite ?Hg, IH; reflexivity.
Qed.

Lemma filter_map_commute {A B} (f : A -> B) (p : B -> bool) l :
  filter p (map f l) = map f (filter (fun x => p (f x)) l).
Proof.
  induction l as [|x l IH]; simpl; [reflexivity|].
  destruct (p (f x)); simpl; rewrite IH; reflexivity.
Qed.

Lemma Forall2_map_self {A B} (R : A -> B -> Prop) (f : A -> B) l :
  (forall x, In x l -> R x (f x)) -> Forall2 R l (map f l).
Proof.
  induction l as [|x l IH]; intros H; simpl; constructor.
  - apply H. left. reflexivity.
  - apply IH. intros y Hy. apply H. right. exact Hy.
Qed.

Lemma relabelled_map rows : relabelled rows = map relabel_row rows.
Proof.
  unfold relabelled. rewrite map_map.
  apply (assign_column_map_self set_type (fun r => replace_type (type r))).
Qed.

(** The table is the trade rows of non-zero profit, relabelled. *)
Lemma displayed_columns trades :
  map trade_columns (displayed trades) =
  map (fun r => trade_columns (relabel_row r)) (drop_zero_profit trades).
Proof.
  unfold displayed, drop_zero_profit. rewrite relabelled_map.
  rewrite filter_map_commute, map_map.
  unfold with_cumulative_profit.
  apply (map_filter_assign_column set_cumulative_profit);
    intros v r; reflexivity.
Qed.

Lemma in_drop_zero_profit r trades :
  In r (drop_zero_profit trades) <-> In r trades /\ ~ (profit r == 0)%Q.
Proof.
  unfold drop_zero_profit, Qneqb. rewrite filter_In, negb_true_iff.
  rewrite <- Qeq_bool_iff.
  destruct (Qeq_bool (profit r) 0); intuition congruence.
Qed.

(** C8: the table of trades shows the rows of the trade frame whose
    profit is not zero, in order, each with the label opposite to its
    stored type: a Buy row reads 'Sell' and a Sell row reads 'Buy'; the
    other columns are shown as stored. *)
Theorem C8_labels_inverted {pandas : PandasSort}
        (w : World) (inp : Inputs) (vars : Locals) (st : State) :
  run w inp = (Ret (Analyzed vars), st) ->
  exists trades table,
    nth_error (heap st) 1 = Some trades /\
    In (EvTradeTable table) (out st) /\
    Forall2 shown_inverted (drop_zero_profit trades) table /\
    (forall r, In r trades -> ~ (profit r == 0)%Q ->
               type r = TypeCode DEAL_TYPE_BUY ->
               In (time r, symbol r, ticket r, TypeLabel "Sell", volume r,
                   price r, profit r, comment r) table) /\
    (forall r, In r trades -> ~ (profit r == 0)%Q ->
               type r = TypeCode DEAL_TYPE_SELL ->
               In (time r, symbol r, ticket r, TypeLabel "Buy", volume r,
                   price r, profit r, comment r) table).
Proof.
  intros H. apply run_analyzed_inv in H.
  destruct H as (raw & _ & _ & _ & _ & _ & Ht & -> & ->).
  exists (trades_of raw), (map trade_columns (displayed (trades_of raw))).
  cbn [heap out analysis_heap nth_error].
  split; [reflexivity|].
  split.
  { right. apply in_or_app. right. right.
    unfold analysis_events. apply in_or_app. left. simpl. tauto. }
  rewrite displayed_columns.
  assert (Hin : forall r, In r (trades_of raw) -> ~ (profit r == 0)%Q ->
                In (trade_columns (relabel_row r))
                   (map (fun r => trade_columns (relabel_row r))
                        (drop_zero_profit (trades_of raw)))).
  { intros r Hr Hp.
    apply (in_map (fun r => trade_columns (relabel_row r))).
    apply in_drop_zero_profit. auto. }
  split; [|split].
  - apply Forall2_map_self. intros r Hr.
    apply in_drop_zero_profit in Hr as [Hr _].
    apply in_trades_of in Hr as [_ Hr].
    exists (replace_type (type r)). split; [reflexivity|].
    destruct Hr as [Hr|Hr]; rewrite Hr; [left|right]; split; reflexivity.
  - intros r Hr Hp Hty. specialize (Hin r Hr Hp).
    unfold trade_columns, relabel_row in Hin. cbn in Hin.
    rewrite Hty in Hin. exact Hin.
  - intros r Hr Hp Hty. specialize (Hin r Hr Hp).
    unfold trade_columns, relabel_row in Hin. cbn in Hin.
    rewrite Hty in Hin. exact Hin.
Qed.

Lemma C8_labels_inverted_witness :
  let r := @run pandas_stable sample_world sample_inputs in
  r = (Ret (Analyzed (@analysis_vars pandas_stable sample_fetched)), snd r) /\
  exists trades table,
    nth_error (heap (snd r)) 1 = Some trades /\
    In (EvTradeTable table) (out (snd r)) /\
    Forall2 shown_inverted (drop_zero_profit trades) table.
Proof.
  intros r. split; [exact sample_run_analyzed|].
  destruct (C8_labels_inverted
              (pandas := pandas_stable) sample_world sample_inputs _ _
              sample_run_analyzed)
    as (trades & table & H1 & H2 & H3 & _).
  exists trades, table. repeat split; assumption.
Defined.

(** ** The "no trades" state *)

Lemma is_nil_true {A} (l : list A) : is_nil l = true <-> l = [].
Proof. destruct l; simpl; split; (reflexivity || discriminate). Qed.

Lemma no_warning_in_analysis {pandas : PandasSort} raw msg :
  ~ In (EvWarning msg) (analysis_events raw).
Proof.
  unfold analysis_events. intros H. apply in_app_or in H as [H|H].
  - simpl in H. intuition discriminate.
  - destruct (is_nil (balance_of raw)); simpl in H; intuition discriminate.
Qed.

Lemma no_warning_in_fetch w s e msg : ~ In (EvWarning msg) (fetch_events w s e).
Proof.
  unfold fetch_events.
  destruct (cache_lookup w s e); simpl; intuition discriminate.
Qed.





(** ** Profit factor *)













(** ** The display-only changes *)

Lemma relabel_and_filter_run s trade_data rows :
  nth_error (heap s) trade_data = Some rows ->
  relabel_and_filter trade_data s =
  (Ret (List.length (heap s)),
   mk_state (update (heap s) trade_data (relabelled rows)
             ++ [drop_zero_profit (relabelled rows)])
            (out s)).
Proof.
  intros H. unfold relabel_and_filter, column, setitem, modify.
  unfold bind at 1 2 3. unfold load at 1. rewrite H.
  unfold ret at 1. cbn iota. rewrite H. cbn iota.
  erewrite getitem_mask_run
    by (cbn [heap]; apply (lookup_update_same _ _ _ _ H)).
  cbn [heap out]. rewrite length_update. reflexivity.
Qed.

(** C7: relabelling the type column and dropping the rows of profit 0
    write to the frame [trade_data] (the copy made on line 77) and to a
    new frame, and to nothing else: no other frame in the heap changes
    and nothing is written to the page.  So when the script ends
    [raw_data] still holds what the fetcher returned, the balance frame and
    the frames of closing, winning and losing deals are what they were,
    the figures are those computed from the trade rows as fetched (all of
    them, with their stored types), and the two charts drawn earlier show
    the series computed from those rows. *)
Theorem C7_display_changes_apply_to_the_copy {pandas : PandasSort}
        (w : World) (inp : Inputs) (vars : Locals) (st : State) :
  run w inp = (Ret (Analyzed vars), st) ->
  (forall s td rows,
      nth_error (heap s) td = Some rows ->
      exists s',
        relabel_and_filter td s = (Ret (List.length (heap s)), s') /\
        out s' = out s /\
        (forall r, r <> td -> (r < List.length (heap s))%nat ->
                   nth_error (heap s') r = nth_error (heap s) r) /\
        nth_error (heap s') td = Some (relabelled rows) /\
        nth_error (heap s') (List.length (heap s))
        = Some (drop_zero_profit (relabelled rows))) /\
  exists raw trades closing,
    fetched w (combine (start_date inp) time_min)
              (combine (end_date inp) time_max) = Some raw /\
    trades = trades_of raw /\
    closing = closing_of trades /\
    nth_error (heap st) (raw_data vars) = Some raw /\
    trade_data vars <> raw_data vars /\
    trade_table vars <> raw_data vars /\
    nth_error (heap st) (trade_data vars)
    = Some (relabelled (with_cumulative_profit trades)) /\
    nth_error (heap st) (trade_table vars)
    = Some (drop_zero_profit (relabelled (with_cumulative_profit trades))) /\
    nth_error (heap st) (balance_data vars) = Some (balance_of raw) /\
    nth_error (heap st) (closing_deals vars) = Some closing /\
    nth_error (heap st) (wins vars) = Some (wins_of closing) /\
    nth_error (heap st) (losses vars) = Some (losses_of closing) /\
    net_profit vars = sum (map profit trades) /\
    total_trades vars = List.length closing /\
    winning_trades vars = List.length (wins_of closing) /\
    losing_trades vars = List.length (losses_of closing) /\
    win_rate vars = win_rate_of closing /\
    profit_factor vars = profit_factor_of closing /\
    avg_win vars = avg_win_of closing /\
    avg_loss vars = avg_loss_of closing /\
    In (EvLineChart (equity_curve trades)) (out st) /\
    In (EvBarChart (symbol_bars closing)) (out st).
Proof.
  intros H. split.
  - intros s td rows Hrows.
    eexists. split; [apply relabel_and_filter_run; exact Hrows|].
    cbn [heap out].
    assert (Htd := lookup_valid _ _ _ Hrows).
    split; [reflexivity|].
    split; [|split].
    + intros r Hne Hr.
      rewrite nth_error_app1 by (rewrite length_update; exact Hr).
      apply lookup_update_other. congruence.
    + rewrite nth_error_app1 by (rewrite length_update; exact Htd).
      apply (lookup_update_same _ _ _ _ Hrows).
    + rewrite <- (length_update (heap s) td (relabelled rows)).
      apply lookup_alloc_new.
  - apply run_analyzed_inv in H.
    destruct H as (raw & _ & _ & _ & Hf & _ & Ht & -> & ->).
    exists raw, (trades_of raw), (closing_of (trades_of raw)).
    cbn [heap out analysis_heap analysis_vars raw_data trade_data
         trade_table balance_data closing_deals wins losses net_profit
         total_trades winning_trades losing_trades win_rate profit_factor
         avg_win avg_loss nth_error].
    assert (Hev : forall ev, In ev (analysis_events raw) ->
              In ev (EvInitialize true ::
                     fetch_events w (combine (start_date inp) time_min)
                                  (combine (end_date inp) time_max) ++
                     EvShutdown :: analysis_events raw)).
    { intros ev Hin. right. apply in_or_app. right. right. exact Hin. }
    repeat match goal with
           | |- _ /\ _ => split
           end;
      try reflexivity; try discriminate; try exact Hf;
      apply Hev; unfold analysis_events; apply in_or_app; left; simpl; tauto.
Qed.

Lemma C7_display_changes_apply_to_the_copy_witness :
  let r := @run pandas_stable sample_world sample_inputs in
  let vars := @analysis_vars pandas_stable sample_fetched in
  r = (Ret (Analyzed vars), snd r) /\
  nth_error (heap (snd r)) (raw_data vars) = Some sample_fetched /\
  trade_data vars <> raw_data vars /\
  exists s',
    relabel_and_filter 0%nat (mk_state [sample_frame] [])
    = (Ret 1%nat, s') /\
    nth_error (heap s') 0 = Some (relabelled sample_frame).
Proof.
  intros r vars. split; [exact sample_run_analyzed|].
  destruct (C7_display_changes_apply_to_the_copy
              (pandas := pandas_stable) sample_world sample_inputs _ _
              sample_run_analyzed)
    as (Hframe & raw & trades & closing & Hf & _ & _ & Hraw & Hne & _).
  split.
  { subst r vars. rewrite Hraw, <- Hf. reflexivity. }
  split; [exact Hne|].
  destruct (Hframe (mk_state [sample_frame] []) 0%nat sample_frame eq_refl)
    as (s' & H1 & _ & _ & H2 & _).
  exists s'. split; assumption.
Defined.

(** ** The equity curve *)


Lemma StronglySorted_filter {A} (R : A -> A -> Prop) (f : A -> bool) l :
  StronglySorted R l -> StronglySorted R (filter f l).
Proof.
  induction 1 as [|x l _ IH Hx]; simpl; [constructor|].
  destruct (f x); [|exact IH].
  constructor; [exact IH|].
  apply Forall_forall. intros y Hy. apply filter_In in Hy as [Hy _].
  rewrite Forall_forall in Hx. exact (Hx y Hy).
Qed.


Lemma by_time_total : total_order by_time.
Proof.
  unfold by_time. split.
  - intros a b. rewrite !Z.leb_le. lia.
  - intros a b c. rewrite !Z.leb_le. lia.
Qed.


(** The columns that neither assignment writes to. *)
Lemma kept_column {C} (col : Row -> C) trades :
  (forall v r, col (set_type v r) = col r) ->
  (forall v r, col (set_cumulative_profit v r) = col r) ->
  map col (relabelled (with_cumulative_profit trades)) = map col trades.
Proof.
  intros H1 H2. unfold relabelled, with_cumulative_profit.
  rewrite !assign_column_other by assumption. reflexivity.
Qed.





(** With a stable sorting routine the series is the one the spec words:
    filtering commutes with a stable insertion sort. *)
Lemma insert_before_least {A} (leb : A -> A -> bool) x l :
  Forall (fun z => leb x z = true) l -> insert_before leb x l = x :: l.
Proof.
  intros H. destruct H as [|z l Hz _]; simpl; [reflexivity|].
  rewrite Hz. reflexivity.
Qed.

Lemma filter_insert_before {A} (leb : A -> A -> bool) (f : A -> bool) x l :
  (forall a b c, leb a b = true -> leb b c = true -> leb a c = true) ->
  StronglySorted (le_of leb) l ->
  filter f (insert_before leb x l) =
  if f x then insert_before leb x (filter f l) else filter f l.
Proof.
  intros Htrans. induction 1 as [|y l Hs IH Hy]; simpl.
  - destruct (f x); reflexivity.
  - destruct (leb x y) eqn:E.
    + simpl. destruct (f x) eqn:Fx; [|reflexivity].
      symmetry. apply insert_before_least.
      assert (Hall : Forall (fun z => leb x z = true) (y :: l)).
      { constructor; [exact E|].
        eapply Forall_impl; [|exact Hy].
        intros z Hz. exact (Htrans _ _ _ E Hz). }
      apply Forall_forall. intros z Hz.
      rewrite Forall_forall in Hall. apply Hall.
      change (In z (filter f (y :: l))) in Hz.
      apply filter_In in Hz. tauto.
    + simpl. rewrite IH.
      destruct (f y) eqn:Fy, (f x) eqn:Fx; simpl; rewrite ?E; reflexivity.
Qed.

Lemma filter_stable_sort {A} (leb : A -> A -> bool) (f : A -> bool) l :
  total_order leb ->
  filter f (stable_sort leb l) = stable_sort leb (filter f l).
Proof.
  intros Ht. induction l as [|x l IH]; simpl; [reflexivity|].
  rewrite filter_insert_before.
  - rewrite IH. destruct (f x); reflexivity.
  - exact (proj2 Ht).
  - apply stable_sort_sorted. exact Ht.
Qed.

Lemma stable_pandas_gives_spec_series (deals : list Deal) :
  map cumulative_profit
      (relabelled
         (with_cumulative_profit
            (trades_of (@sort_values pandas_stable _ by_time
                                     (map row_of_deal deals)))))
  = map Some (cumulative_profit_spec (trades_of (map row_of_deal deals))).
Proof.
  rewrite cumulative_column_relabelled. unfold cumulative_profit_spec.
  cbn [sort_values pandas_stable]. unfold trades_of.
  rewrite filter_stable_sort by apply by_time_total. reflexivity.
Qed.

(** ** The examples of the spec, run through the script *)

(** Example 1: a winning and a losing closing deal. *)
Example example_two_closing_deals :
  let closing := [sample_row 100 1 DEAL_TYPE_BUY 1 100%Q;
                  sample_row 200 2 DEAL_TYPE_SELL 1 (-40)%Q] in
  closing_of (trades_of closing) = closing /\
  List.length closing = 2%nat /\
  List.length (wins_of closing) = 1%nat /\
  List.length (losses_of closing) = 1%nat /\
  (win_rate_of closing == 50)%Q /\
  (exists q, profit_factor_of closing = Finite q /\ (q == 5 # 2)%Q) /\
  (sum (map profit closing) == 60)%Q.
Proof.
  cbv zeta. repeat split; try reflexivity.
  eexists. split; [vm_compute; reflexivity | reflexivity].
Qed.

(** Example 5: profit per symbol, worst first. *)
Example example_profit_by_symbol :
  @symbol_bars pandas_stable
     [mk_row 1 1 "GBPUSD" (TypeCode 0) 1 1 1 20 "" None;
      mk_row 2 2 "EURUSD" (TypeCode 0) 1 1 1 10 "" None;
      mk_row 3 3 "EURUSD" (TypeCode 1) 1 1 1 (-5) "" None]
  = [("EURUSD"%string, 5%Q); ("GBPUSD"%string, 20%Q)].
Proof. vm_compute. reflexivity. Qed.

(** * Further properties of the script *)

(** ** Sums of rationals *)

Lemma fold_left_Qplus_acc xs a :
  (fold_left Qplus xs a == a + fold_left Qplus xs 0)%Q.
Proof.
  revert a. induction xs as [|x xs IH]; intros a; simpl.
  - ring.
  - rewrite (IH (a + x)%Q), (IH (0 + x)%Q). ring.
Qed.

Lemma sum_cons x xs : (sum (x :: xs) == x + sum xs)%Q.
Proof.
  unfold sum. simpl. rewrite fold_left_Qplus_acc. ring.
Qed.

Lemma sum_app xs ys : (sum (xs ++ ys) == sum xs + sum ys)%Q.
Proof.
  induction xs as [|x xs IH]; simpl.
  - unfold sum at 2. simpl. ring.
  - rewrite !sum_cons, IH. ring.
Qed.







(** ** Win rate and counts *)




(** ** Gross profit and gross loss *)








Lemma analysis_event_in_run {pandas : PandasSort} raw evs ev :
  In ev (analysis_events raw) ->
  In ev (EvInitialize true :: evs ++ EvShutdown :: analysis_events raw).
Proof. intros H. right. apply in_or_app. right. right. exact H. Qed.








(** ** The sign of the profit factor and of the averages *)







(** ** How a run ends *)

Lemma count_cons p x t :
  count p (x :: t) = ((if p x then 1 else 0) + count p t)%nat.
Proof. unfold count. simpl. destruct (p x); reflexivity. Qed.

Lemma count_analysis_messages {pandas : PandasSort} raw :
  count is_message (analysis_events raw) = 0%nat.
Proof.
  unfold analysis_events. rewrite count_app.
  destruct (is_nil (balance_of raw)); reflexivity.
Qed.

Lemma count_analysis_results {pandas : PandasSort} raw :
  count is_result (analysis_events raw)
  = (7 + if is_nil (balance_of raw) then 0 else 1)%nat.
Proof.
  unfold analysis_events. rewrite count_app.
  destruct (is_nil (balance_of raw)); reflexivity.
Qed.

Lemma count_fetch_none p w s e :
  p (EvGetTradeHistory s e) = false ->
  p (EvHistoryDealsGet s e) = false ->
  count p (fetch_events w s e) = 0%nat.
Proof.
  intros H1 H2. rewrite count_fetch_events, H1, H2.
  destruct (cache_lookup w s e); reflexivity.
Qed.

(** The sorted frame of a non-empty tuple of deals is not empty. *)
Lemma sorted_deals_not_nil {pandas : PandasSort} d ds :
  is_nil (sort_values by_time (map row_of_deal (d :: ds))) = false.
Proof.
  destruct (sort_values by_time (map row_of_deal (d :: ds))) eqn:E;
    [|reflexivity].
  assert (H := sort_values_perm _ by_time (map row_of_deal (d :: ds))).
  rewrite E in H. apply Permutation_nil in H. discriminate H.
Qed.


(** X6: the script stops ([st.stop()]) exactly when the button was
    pressed, the dates passed the check and [mt5.initialize()] failed; it
    has then shown the connection error and nothing else: no fetch, no
    shutdown, no frame, no result. *)
Theorem X6_unreachable_terminal_stops_the_script {pandas : PandasSort}
        (w : World) (inp : Inputs) :
  (fst (run w inp) = Stopped <->
   analyze_button inp = true /\
   date_leb (start_date inp) (end_date inp) = true /\
   mt5_initialize w = false) /\
  (fst (run w inp) = Stopped ->
   snd (run w inp)
   = mk_state [] [EvInitialize false; EvError msg_init_failed]).
Proof.
  rewrite run_expected. unfold expected_run.
  destruct (analyze_button inp); cbn [negb];
    [|split; [split; [discriminate | intros [H _]; discriminate H]
             | discriminate]].
  destruct (date_leb _ _); cbn [negb];
    [|split; [split; [discriminate | intros (_ & H & _); discriminate H]
             | discriminate]].
  destruct (mt5_initialize w); cbn [negb];
    [|split; [split; auto | reflexivity]].
  destruct (fetched w _ _) as [raw|];
    [destruct (is_nil raw); [|destruct (is_nil (trades_of raw))]|];
    (split; [split; [discriminate | intros (_ & _ & H); discriminate H]
            | discriminate]).
Qed.

Lemma X6_unreachable_terminal_stops_the_script_witness :
  @run pandas_stable unreachable_world sample_inputs
  = (Stopped, mk_state [] [EvInitialize false; EvError msg_init_failed]).
Proof.
  destruct (X6_unreachable_terminal_stops_the_script
              (pandas := pandas_stable) unreachable_world sample_inputs)
    as [Hiff Hst].
  assert (H : fst (@run pandas_stable unreachable_world sample_inputs)
              = Stopped).
  { apply Hiff. repeat split. }
  rewrite (surjective_pairing (@run pandas_stable unreachable_world
                                    sample_inputs)).
  rewrite H, (Hst H). reflexivity.
Defined.



Lemma run_page_counts {pandas : PandasSort} (w : World) (inp : Inputs) :
  let r := run w inp in
  match fst r with
  | Ret (Analyzed _) =>
      count is_message (trace r) = 0%nat /\
      (7 <= count is_result (trace r) <= 8)%nat
  | Raised =>
      count is_message (trace r) = 0%nat /\
      count is_result (trace r) = 0%nat
  | _ =>
      count is_message (trace r) = 1%nat /\
      count is_result (trace r) = 0%nat
  end.
Proof.
  intros r. subst r. unfold trace. rewrite run_expected.
  unfold expected_run.
  destruct (analyze_button inp); cbn [negb]; [|split; reflexivity].
  destruct (date_leb _ _); cbn [negb]; [|split; reflexivity].
  destruct (mt5_initialize w); cbn [negb]; [|split; reflexivity].
  set (s := combine (start_date inp) time_min).
  set (e := combine (end_date inp) time_max).
  assert (Hfm : count is_message (fetch_events w s e) = 0%nat)
    by (apply count_fetch_none; reflexivity).
  assert (Hfr : count is_result (fetch_events w s e) = 0%nat)
    by (apply count_fetch_none; reflexivity).
  destruct (fetched w s e) as [raw|];
    [destruct (is_nil raw); [|destruct (is_nil (trades_of raw))]|];
    cbn [fst snd out];
    rewrite !count_cons, ?count_app, ?count_cons, ?Hfm, ?Hfr,
            ?count_analysis_messages, ?count_analysis_results;
    cbn [is_message is_result].
  - split; reflexivity.
  - split; reflexivity.
  - destruct (is_nil (balance_of raw)); split; lia.
  - split; reflexivity.
Qed.

(** X8: a run shows at most one message.  It shows none exactly when it
    renders the analysis or ends in an exception, and results (metrics,
    charts, tables) are on the page exactly when the analysis was
    reached: a refused, failed or empty request renders nothing of them. *)
Theorem X8_one_message_or_the_results {pandas : PandasSort}
        (w : World) (inp : Inputs) :
  let r := run w inp in
  (count is_message (trace r) <= 1)%nat /\
  (count is_message (trace r) = 0%nat <->
   (exists vars, fst r = Ret (Analyzed vars)) \/ fst r = Raised) /\
  (count is_result (trace r) <> 0%nat <->
   exists vars, fst r = Ret (Analyzed vars)) /\
  ((exists vars, fst r = Ret (Analyzed vars)) ->
   (7 <= count is_result (trace r) <= 8)%nat).
Proof.
  intros r. assert (H := run_page_counts w inp). cbv zeta in H. fold r in H.
  destruct (fst r) as [[| |raw|raw t b|vars]| |]; destruct H as [Hm Hr];
    rewrite Hm; (split; [lia|]); (split; [|split]);
    try (split; [discriminate | intros [[v E]|E]; discriminate E]);
    try (split; [intros E; lia | intros [v E]; discriminate E]);
    try (intros [v E]; discriminate E).
  - split; [intros _; left; eauto | reflexivity].
  - split; [intros _; eauto | lia].
  - intros _. exact Hr.
  - split; [intros _; right; reflexivity | reflexivity].
Qed.

Lemma X8_one_message_or_the_results_witness :
  count is_message
        (trace (@run pandas_stable deposits_only_world sample_inputs))
  = 1%nat /\
  count is_result
        (trace (@run pandas_stable deposits_only_world sample_inputs))
  = 0%nat.
Proof.
  destruct (X8_one_message_or_the_results
              (pandas := pandas_stable) deposits_only_world sample_inputs)
    as (Hle & Hz & Hres & _).
  split.
  - assert (Hn : count is_message
                   (trace (@run pandas_stable deposits_only_world
                                sample_inputs)) <> 0%nat).
    { intros E. apply Hz in E. destruct E as [[v E]|E]; vm_compute in E;
        discriminate E. }
    lia.
  - destruct (Nat.eq_dec
                (count is_result
                   (trace (@run pandas_stable deposits_only_world
                                sample_inputs))) 0) as [E|E]; [exact E|].
    apply Hres in E. destruct E as [v E]. vm_compute in E. discriminate E.
Defined.

(** ** Fetching *)




(** X10: a cached frame is handed out as it is: the terminal is not
    queried, the frame is not sorted again, and the caller gets a new
    object, so what it later writes does not reach the frames that
    existed before. *)
Theorem X10_cache_hit_skips_the_terminal
        {pandas : PandasSort} (w : World) (a b : datetime) (s : State)
        (cached : DataFrame) :
  cache_lookup w a b = Some cached ->
  get_trade_history w a b s
  = (Ret (List.length (heap s)),
     mk_state (heap s ++ [cached]) (out s ++ [EvGetTradeHistory a b])) /\
  (forall inp,
      a = combine (start_date inp) time_min ->
      b = combine (end_date inp) time_max ->
      analyze_button inp = true ->
      date_leb (start_date inp) (end_date inp) = true ->
      mt5_initialize w = true ->
      count is_broker_query (trace (run w inp)) = 0%nat /\
      count is_connect (trace (run w inp)) = 1%nat /\
      count is_shutdown (trace (run w inp)) = 1%nat /\
      nth_error (heap (snd (run w inp))) 0 = Some cached).
Proof.
  intros Hc. split.
  - unfold get_trade_history. rewrite Hc.
    unfold bind, emit, alloc. reflexivity.
  - intros inp -> -> Hb Hd Hi.
    assert (Hf : fetched w (combine (start_date inp) time_min)
                         (combine (end_date inp) time_max) = Some cached).
    { unfold fetched. rewrite Hc. reflexivity. }
    rewrite !(count_connected_run _ w inp) by (assumption || page_blind).
    rewrite !count_fetch_events, Hc, Hf.
    cbn [is_broker_query is_connect is_shutdown].
    repeat split.
    rewrite run_expected. unfold expected_run.
    rewrite Hb, Hd, Hi, Hf. cbn [negb].
    destruct (is_nil cached); [|destruct (is_nil (trades_of cached))];
      reflexivity.
Qed.

Lemma X10_cache_hit_skips_the_terminal_witness :
  let a := combine sample_day time_min in
  let b := combine sample_next_day time_max in
  let w := mk_world true (fun _ _ => Some sample_frame)
                    (fun _ _ => DealsRaise) in
  cache_lookup w a b = Some sample_frame /\
  count is_broker_query (trace (@run pandas_stable w sample_inputs))
  = 0%nat /\
  nth_error (heap (snd (@run pandas_stable w sample_inputs))) 0
  = Some sample_frame.
Proof.
  intros a b w. split; [reflexivity|].
  destruct (X10_cache_hit_skips_the_terminal
              (pandas := pandas_stable) w a b initial sample_frame eq_refl)
    as [_ H].
  destruct (H sample_inputs eq_refl eq_refl eq_refl eq_refl eq_refl)
    as (H1 & _ & _ & H2).
  split; assumption.
Defined.

(** ** Empty results and the balance table *)

Lemma fetched_nil_on_miss {pandas : PandasSort} w s e :
  cache_lookup w s e = None ->
  (fetched w s e = Some [] <->
   mt5_history_deals_get w s e = DealsNone \/
   mt5_history_deals_get w s e = DealsTuple []).
Proof.
  intros Hc. unfold fetched. rewrite Hc.
  destruct (mt5_history_deals_get w s e) as [| |[|d ds]].
  - split; [discriminate | intros [H|H]; discriminate H].
  - split; auto.
  - split; auto.
  - split; [|intros [H|H]; discriminate H].
    intros H. inversion H as [E].
    assert (Hn := sorted_deals_not_nil d ds). cbn [map] in Hn.
    rewrite E in Hn.
    discriminate Hn.
Qed.

(** X11: in a request that reaches the terminal, the "no account
    activity" warning is shown exactly when the fetched frame is empty;
    on a cache miss that is exactly when the terminal returned [None] or
    an empty tuple, which are treated alike.  The connection has been
    closed before the warning, and nothing is classified or analysed. *)
Theorem X11_no_deals_is_no_activity {pandas : PandasSort}
        (w : World) (inp : Inputs) :
  analyze_button inp = true ->
  date_leb (start_date inp) (end_date inp) = true ->
  mt5_initialize w = true ->
  let s := combine (start_date inp) time_min in
  let e := combine (end_date inp) time_max in
  let r := run w inp in
  (In (EvWarning msg_no_activity) (trace r) <-> fetched w s e = Some []) /\
  ((exists raw, fst r = Ret (NoActivity raw)) <-> fetched w s e = Some []) /\
  (cache_lookup w s e = None ->
   (fetched w s e = Some [] <->
    mt5_history_deals_get w s e = DealsNone \/
    mt5_history_deals_get w s e = DealsTuple [])) /\
  (fetched w s e = Some [] ->
   r = (Ret (NoActivity 0%nat),
        mk_state [[]]
                 (EvInitialize true :: fetch_events w s e ++
                  [EvShutdown; EvWarning msg_no_activity]))).
Proof.
  intros Hb Hd Hi s e r. subst r. unfold trace.
  rewrite run_expected. unfold expected_run. fold s e.
  rewrite Hb, Hd, Hi. cbn [negb].
  split; [|split; [|split]].
  - destruct (fetched w s e) as [raw|]; cbn [snd out].
    + destruct raw as [|x raw]; cbn [is_nil snd out].
      * split; [reflexivity|]. intros _. right. apply in_or_app. right.
        simpl. tauto.
      * split; [|discriminate]. intros H. exfalso.
        destruct (is_nil (trades_of (x :: raw))); cbn [snd out] in H;
          destruct H as [H|H]; try discriminate H;
          apply in_app_or in H as [H|H];
          try exact (no_warning_in_fetch _ _ _ _ H).
        -- simpl in H. destruct H as [H|[H|[]]]; discriminate H.
        -- destruct H as [H|H]; [discriminate H|].
           exact (no_warning_in_analysis _ _ H).
    + split; [|discriminate]. intros [H|H]; [discriminate H|].
      exfalso. exact (no_warning_in_fetch _ _ _ _ H).
  - destruct (fetched w s e) as [raw|]; cbn [fst].
    + destruct raw as [|x raw]; cbn [is_nil fst].
      * split; [reflexivity | eauto].
      * split; [|discriminate]. intros [raw0 H].
        destruct (is_nil (trades_of (x :: raw))); discriminate H.
    + split; [intros [raw0 H]; discriminate H | discriminate].
  - apply fetched_nil_on_miss.
  - intros ->. reflexivity.
Qed.

Lemma X11_no_deals_is_no_activity_witness :
  (analyze_button sample_inputs = true /\
   date_leb (start_date sample_inputs) (end_date sample_inputs) = true /\
   mt5_initialize quiet_world = true) /\
  In (EvWarning msg_no_activity)
     (trace (@run pandas_stable quiet_world sample_inputs)).
Proof.
  split; [repeat split|].
  destruct (X11_no_deals_is_no_activity
              (pandas := pandas_stable) quiet_world sample_inputs
              eq_refl eq_refl eq_refl) as (H & _).
  apply H. reflexivity.
Defined.

(** X12: the table of deposits and withdrawals is rendered only at the
    end of the analysis branch: it is on the page exactly when the
    fetched frame has both a Buy/Sell row and a Balance row, and it then
    lists the time, ticket and profit of each Balance row, in the order of
    the frame.  When the frame has balance rows but no trade, the script
    shows the "no trades" warning and no table. *)
Theorem X12_balance_table_needs_a_trade {pandas : PandasSort}
        (w : World) (inp : Inputs) (raw : DataFrame) :
  analyze_button inp = true ->
  date_leb (start_date inp) (end_date inp) = true ->
  mt5_initialize w = true ->
  fetched w (combine (start_date inp) time_min)
            (combine (end_date inp) time_max) = Some raw ->
  let r := run w inp in
  (forall rows,
      In (EvBalanceTable rows) (trace r) <->
      trades_of raw <> [] /\ balance_of raw <> [] /\
      rows = map balance_columns (balance_of raw)) /\
  (count is_balance_table (trace r) <= 1)%nat /\
  (trades_of raw = [] -> raw <> [] ->
   count is_balance_table (trace r) = 0%nat /\
   In (EvWarning msg_no_trades) (trace r)).
Proof.
  intros Hb Hd Hi Hf r. subst r. unfold trace.
  rewrite run_expected. unfold expected_run.
  rewrite Hb, Hd, Hi, Hf. cbn [negb].
  set (s := combine (start_date inp) time_min).
  set (e := combine (end_date inp) time_max).
  assert (Hfe : forall rows, ~ In (EvBalanceTable rows) (fetch_events w s e)).
  { intros rows. unfold fetch_events.
    destruct (cache_lookup w s e); simpl; intuition discriminate. }
  assert (Hfc : count is_balance_table (fetch_events w s e) = 0%nat)
    by (apply count_fetch_none; reflexivity).
  destruct (is_nil raw) eqn:Hr; cbn [snd out].
  { apply is_nil_true in Hr. subst raw. split; [|split].
    - intros rows. split.
      + intros [H|H]; [discriminate H|]. apply in_app_or in H as [H|H].
        * exfalso. exact (Hfe _ H).
        * simpl in H. destruct H as [H|[H|[]]]; discriminate H.
      + intros [H _]. exfalso. apply H. reflexivity.
    - rewrite count_cons, count_app, Hfc. cbn. lia.
    - intros _ H. exfalso. apply H. reflexivity. }
  destruct (is_nil (trades_of raw)) eqn:Ht; cbn [snd out].
  { apply is_nil_true in Ht. split; [|split].
    - intros rows. split.
      + intros [H|H]; [discriminate H|]. apply in_app_or in H as [H|H].
        * exfalso. exact (Hfe _ H).
        * simpl in H. destruct H as [H|[H|[]]]; discriminate H.
      + intros [H _]. contradiction.
    - rewrite count_cons, count_app, Hfc. cbn. lia.
    - intros _ _. split.
      + rewrite count_cons, count_app, Hfc. reflexivity.
      + right. apply in_or_app. right. simpl. tauto. }
  assert (Htne : trades_of raw <> []).
  { intros E. rewrite E in Ht. discriminate Ht. }
  split; [|split].
  - intros rows. unfold analysis_events. split.
    + intros [H|H]; [discriminate H|]. apply in_app_or in H as [H|H].
      * exfalso. exact (Hfe _ H).
      * destruct H as [H|H]; [discriminate H|].
        apply in_app_or in H as [H|H].
        -- simpl in H. exfalso. intuition discriminate.
        -- destruct (is_nil (balance_of raw)) eqn:Hbal; simpl in H.
           ++ contradiction.
           ++ destruct H as [H|[]]. inversion H.
              repeat split; [exact Htne|].
              intros E. rewrite E in Hbal. discriminate Hbal.
    + intros (_ & Hbne & ->). right. apply in_or_app. right. right.
      apply in_or_app. right.
      destruct (is_nil (balance_of raw)) eqn:Hbal.
      * apply is_nil_true in Hbal. contradiction.
      * left. reflexivity.
  - rewrite count_cons, count_app, Hfc, count_cons.
    unfold analysis_events. rewrite count_app.
    destruct (is_nil (balance_of raw)); cbn; lia.
  - intros E. contradiction.
Qed.

Lemma X12_balance_table_needs_a_trade_witness :
  let raw := stable_sort by_time (map row_of_deal deposits_only_deals) in
  let r := @run pandas_stable deposits_only_world sample_inputs in
  (analyze_button sample_inputs = true /\
   date_leb (start_date sample_inputs) (end_date sample_inputs) = true /\
   mt5_initialize deposits_only_world = true /\
   @fetched pandas_stable deposits_only_world
            (combine (start_date sample_inputs) time_min)
            (combine (end_date sample_inputs) time_max) = Some raw /\
   trades_of raw = [] /\ raw <> [] /\ balance_of raw <> []) /\
  count is_balance_table (trace r) = 0%nat /\
  In (EvWarning msg_no_trades) (trace r).
Proof.
  intros raw r.
  assert (H1 : trades_of raw = []) by reflexivity.
  assert (H2 : raw <> []) by (vm_compute; discriminate).
  assert (H3 : balance_of raw <> []) by (vm_compute; discriminate).
  split; [repeat split; assumption|].
  destruct (X12_balance_table_needs_a_trade
              (pandas := pandas_stable) deposits_only_world sample_inputs raw
              eq_refl eq_refl eq_refl eq_refl) as (_ & _ & H).
  exact (H H1 H2).
Defined.

(** ** The running sum, value by value *)

Lemma nth_cumsum_from acc xs i c :
  nth_error (cumsum_from acc xs) i = Some c ->
  c = fold_left Qplus (firstn (S i) xs) acc.
Proof.
  revert acc i. induction xs as [|x xs IH]; intros acc [|i] H; simpl in H;
    try discriminate.
  - inversion H. reflexivity.
  - apply IH in H. exact H.
Qed.

Lemma nth_cumsum xs i c :
  nth_error (cumsum xs) i = Some c -> (c == sum (firstn (S i) xs))%Q.
Proof.
  destruct xs as [|x xs]; [destruct i; discriminate|].
  destruct i as [|i]; intros H.
  - simpl in H. inversion H. unfold sum. simpl. ring.
  - change (nth_error (cumsum_from x xs) i = Some c) in H.
    apply nth_cumsum_from in H. subst c. unfold sum.
    change (firstn (S (S i)) (x :: xs)) with (x :: firstn (S i) xs).
    change (fold_left Qplus (x :: firstn (S i) xs) 0%Q)
      with (fold_left Qplus (firstn (S i) xs) (0 + x)%Q).
    apply fold_left_Qplus_compat. ring.
Qed.

(** X13: the [cumulative_profit] column is the column of prefix sums: the
    value in row [i] of the trade frame is the sum of the profits of rows
    0 to [i], rows of profit zero and opening deals included; the equity
    curve pairs the time of each row with that value. *)
Theorem X13_cumulative_profit_is_the_prefix_sum {pandas : PandasSort}
        (w : World) (inp : Inputs) (vars : Locals) (st : State) :
  run w inp = (Ret (Analyzed vars), st) ->
  exists trades df points,
    nth_error (heap st) 1 = Some trades /\
    nth_error (heap st) (trade_data vars) = Some df /\
    List.length df = List.length trades /\
    map profit df = map profit trades /\
    (forall i r,
        nth_error df i = Some r ->
        exists c,
          cumulative_profit r = Some c /\
          (c == sum (map profit (firstn (S i) trades)))%Q) /\
    In (EvLineChart points) (out st) /\
    map fst points = map time df /\
    map snd points = map cumulative_profit df.
Proof.
  intros H. apply run_analyzed_inv in H.
  destruct H as (raw & _ & _ & _ & _ & _ & _ & -> & ->).
  set (trades := trades_of raw).
  exists trades, (relabelled (with_cumulative_profit trades)),
         (equity_curve trades).
  cbn [analysis_vars analysis_heap heap out trade_data nth_error].
  fold trades.
  split; [reflexivity|]. split; [reflexivity|].
  split.
  { unfold relabelled, with_cumulative_profit.
    rewrite !length_assign_column. reflexivity. }
  split; [apply kept_column; reflexivity|].
  split.
  { intros i r Hr.
    apply (map_nth_error cumulative_profit) in Hr.
    rewrite cumulative_column_relabelled in Hr.
    rewrite nth_error_map in Hr.
    destruct (nth_error (cumsum (map profit trades)) i) as [c|] eqn:Hc;
      [|discriminate Hr].
    simpl in Hr. inversion Hr as [E]. exists c. split; [reflexivity|].
    apply nth_cumsum in Hc. rewrite <- firstn_map. exact Hc. }
  split; [apply analysis_event_in_run; unfold analysis_events;
          apply in_or_app; left; simpl; tauto|].
  destruct (equity_curve_columns trades) as [H1 H2].
  split.
  - rewrite H1. symmetry. apply kept_column; reflexivity.
  - rewrite H2. symmetry. apply cumulative_column_relabelled.
Qed.

Lemma X13_cumulative_profit_is_the_prefix_sum_witness :
  let r := @run pandas_stable sample_world sample_inputs in
  let vars := @analysis_vars pandas_stable sample_fetched in
  r = (Ret (Analyzed vars), snd r) /\
  exists trades df,
    nth_error (heap (snd r)) 1 = Some trades /\
    nth_error (heap (snd r)) (trade_data vars) = Some df /\
    List.length df = List.length trades.
Proof.
  intros r vars. split; [exact sample_run_analyzed|].
  destruct (X13_cumulative_profit_is_the_prefix_sum
              (pandas := pandas_stable) sample_world sample_inputs _ _
              sample_run_analyzed)
    as (trades & df & points & H1 & H2 & H3 & _).
  exists trades, df. repeat split; assumption.
Defined.

(** ** Profit by symbol *)



















(** ** The table against the curve, and the order of the subsets *)

Lemma length_filter_split {A} (p : A -> bool) l :
  (List.length (filter p l) + List.length (filter (fun x => negb (p x)) l)
   = List.length l)%nat.
Proof.
  induction l as [|x l IH]; simpl; [reflexivity|].
  destruct (p x); simpl; lia.
Qed.

(** X15: the equity curve has one point for every trade row, while the
    table leaves out the rows of profit zero and shows no other: every
    row shown has a non-zero profit, and the rows shown and the trade
    rows of profit zero together are as many as the points of the
    curve. *)
Theorem X15_table_omits_flat_rows_the_curve_does_not
        {pandas : PandasSort}
        (w : World) (inp : Inputs) (vars : Locals) (st : State) :
  run w inp = (Ret (Analyzed vars), st) ->
  exists trades table points,
    nth_error (heap st) 1 = Some trades /\
    In (EvTradeTable table) (out st) /\
    In (EvLineChart points) (out st) /\
    List.length points = List.length trades /\
    Forall (fun v => ~ (view_profit v == 0)%Q) table /\
    (List.length table
     + List.length (filter (fun r => Qeq_bool (profit r) 0) trades)
     = List.length points)%nat.
Proof.
  intros H. apply run_analyzed_inv in H.
  destruct H as (raw & _ & _ & _ & _ & _ & _ & -> & ->).
  set (trades := trades_of raw).
  exists trades, (map trade_columns (displayed trades)),
         (equity_curve trades).
  cbn [analysis_heap heap out nth_error]. fold trades.
  assert (Hlen : List.length (equity_curve trades) = List.length trades).
  { unfold equity_curve, with_cumulative_profit.
    rewrite length_map, length_assign_column. reflexivity. }
  split; [reflexivity|].
  split; [apply analysis_event_in_run; unfold analysis_events;
          apply in_or_app; left; simpl; tauto|].
  split; [apply analysis_event_in_run; unfold analysis_events;
          apply in_or_app; left; simpl; tauto|].
  split; [exact Hlen|].
  rewrite displayed_columns.
  split.
  - apply Forall_forall. intros v Hv.
    apply in_map_iff in Hv as (r & <- & Hr).
    apply in_drop_zero_profit in Hr as [_ Hr]. exact Hr.
  - rewrite length_map, Hlen. unfold drop_zero_profit, Qneqb.
    rewrite Nat.add_comm.
    apply (length_filter_split (fun r => Qeq_bool (profit r) 0)).
Qed.

Lemma X15_table_omits_flat_rows_the_curve_does_not_witness :
  let r := @run pandas_stable sample_world sample_inputs in
  let vars := @analysis_vars pandas_stable sample_fetched in
  r = (Ret (Analyzed vars), snd r) /\
  exists table points,
    In (EvTradeTable table) (out (snd r)) /\
    In (EvLineChart points) (out (snd r)) /\
    Forall (fun v => ~ (view_profit v == 0)%Q) table /\
    (List.length table <= List.length points)%nat.
Proof.
  intros r vars. split; [exact sample_run_analyzed|].
  destruct (X15_table_omits_flat_rows_the_curve_does_not
              (pandas := pandas_stable) sample_world sample_inputs _ _
              sample_run_analyzed)
    as (trades & table & points & _ & H1 & H2 & _ & H3 & H4).
  exists table, points. repeat split; try assumption. lia.
Defined.

(** X16: classification keeps the rows in the order of the input: if
    [raw_data] is sorted for some relation, so are the trade frame and the
    balance frame.  Every row of the input goes to exactly one of the
    trade frame, the balance frame or neither, so the three counts add up
    to the number of rows. *)
Theorem X16_classification_keeps_order_and_counts
        (s : State) (raw_data : ref) (raw : DataFrame) :
  nth_error (heap s) raw_data = Some raw ->
  exists trade_data balance_data s' T B,
    classify raw_data s = (Ret (trade_data, balance_data), s') /\
    nth_error (heap s') trade_data = Some T /\
    nth_error (heap s') balance_data = Some B /\
    trade_data <> raw_data /\ balance_data <> raw_data /\
    trade_data <> balance_data /\
    (forall R : Row -> Row -> Prop,
        StronglySorted R raw -> StronglySorted R T /\ StronglySorted R B) /\
    (List.length T + List.length B + List.length (others_of raw)
     = List.length raw)%nat /\
    (raw = [] -> T = [] /\ B = []).
Proof.
  intros H.
  assert (Hlen := lookup_valid _ _ _ H).
  set (n := List.length (heap s)) in *.
  exists (S n), (S (S (S n))). eexists.
  exists (trades_of raw), (balance_of raw).
  split; [apply classify_run; exact H|]. cbn [heap].
  split; [block_lookup 1%nat|].
  split; [block_lookup 3%nat|].
  split; [lia|]. split; [lia|]. split; [lia|].
  split.
  { intros R HR. split; apply StronglySorted_filter; exact HR. }
  split.
  { unfold trades_of, balance_of, others_of. clear.
    induction raw as [|r raw IH]; simpl; [reflexivity|].
    destruct (isin _ (type r)) eqn:E1, (eq_code _ (type r)) eqn:E2;
      simpl; try lia.
    exfalso. apply isin_buy_sell in E1. apply eq_code_balance in E2.
    rewrite E2 in E1. destruct E1 as [E1|E1]; discriminate E1. }
  intros ->. split; reflexivity.
Qed.

Lemma X16_classification_keeps_order_and_counts_witness :
  let s := mk_state [sample_frame] [] in
  nth_error (heap s) 0 = Some sample_frame /\
  exists trade_data balance_data s' T B,
    classify 0%nat s = (Ret (trade_data, balance_data), s') /\
    nth_error (heap s') trade_data = Some T /\
    nth_error (heap s') balance_data = Some B /\
    (List.length T + List.length B + List.length (others_of sample_frame)
     = List.length sample_frame)%nat.
Proof.
  intros s. split; [reflexivity|].
  destruct (X16_classification_keeps_order_and_counts
              s 0%nat sample_frame eq_refl)
    as (t & b & s' & T & B & H1 & H2 & H3 & _ & _ & _ & _ & H4 & _).
  exists t, b, s', T, B. repeat split; assumption.
Defined.
